(** * The OpenAPI 3.1.0 -> 3.0.2 converter of [scripts/docs_openapi_converter.py]

    A shallow embedding of [convert_3_dot_1_to_3_dot_0] and of its nested
    function [inner], followed by the properties the specification states
    about them.

    The Python code works on the value produced by [json.load] and mutates
    it in place.  Two features of the code shape the model:

    - a dict keeps its keys in insertion order, [d[k] = v] keeps the place
      of a key that is already there and appends a new one, and the [for]
      loop of [inner] walks the values in that order: an Object is an
      association list;

    - [inner] is a closure over [json_content], the root dict, and reads
      [json_content.get("anyOf", [])] while the tree below the root is
      being rewritten.  A parsed document is a tree (no value has two
      parents), so the object [inner] is working on has one place in the
      document, and the document is that object with the rest of the tree
      around it.  [inner] therefore receives, with the node, the function
      that rebuilds the root from the present contents of the node; the
      loops over the children extend that function with the siblings in
      their present state.

    [load_and_convert], the caller, is modelled on a file system that maps
    a path to what [json.load] makes of it, with the log it writes.

    A call returns the rewritten tree or raises: [len] on line 26 raises
    [TypeError] when the root holds a number, a boolean or [None] under
    ["anyOf"].  The model has no recursion limit: on a document nested deeper
    than the interpreter allows the Python walk raises [RecursionError],
    where the model walks on.  What the code returns, the model returns, so
    the properties are stated of the calls that return, or of [TypeError]
    alone.  The walk is written with fuel; [convert_fuel] shows that the
    fuel the model is given never runs out.  The lemmas that say that the
    model returns ([convert_returns], [convert_returns_or_raises],
    [convert_converted]) are steps of the proofs; of the code they hold for
    the documents within the recursion limit. *)

From Stdlib Require Import String List ZArith Bool Arith Lia.
Import ListNotations.
Open Scope string_scope.
Open Scope list_scope.

Set Warnings "-register-all".

(** ** Values *)

(** A number as [json.load] builds it: a Python [int], or a [float] kept as
    its 64 bits.  The converter never looks inside a number. *)
Inductive number : Type :=
| Int (z : Z)
| Float (bits : Z).

(** [Json]: what [json.load] returns.  A character of a [JString] stands for
    one code point, so that [String.length] is Python's [len]. *)
Inductive Json : Type :=
| JNull
| JBool (b : bool)
| JNumber (n : number)
| JString (s : string)
| JList (l : list Json)
| JDict (d : list (string * Json)).

(** ** Python dicts *)

Module Dict.

Definition t : Type := list (string * Json).

(** [d.get(k)]; [Some] is also the answer [True] of [k in d]. *)
Fixpoint get (k : string) (d : t) : option Json :=
  match d with
  | [] => None
  | (k', v) :: rest => if String.eqb k k' then Some v else get k rest
  end.

(** [d[k] = v]: the value of a key that is present is replaced where it
    stands, a new key goes to the end. *)
Fixpoint set (k : string) (v : Json) (d : t) : t :=
  match d with
  | [] => [(k, v)]
  | (k', v') :: rest =>
      if String.eqb k k' then (k', v) :: rest else (k', v') :: set k v rest
  end.

(** [d.pop(k, default)] leaves [d] without the key [k]. *)
Definition pop (k : string) (d : t) : t :=
  filter (fun e => negb (String.eqb k (fst e))) d.

(** [list(d)]: the keys, in the order of the dict. *)
Definition keys (d : t) : list string := map fst d.

End Dict.

(** ** Results *)

(** The exceptions the converter can raise. *)
Inductive exn : Type :=
| TypeError
| AttributeError.

(** A call returns, raises, or (in the model only) runs out of fuel. *)
Inductive result (A : Type) : Type :=
| Ok (a : A)
| Raise (e : exn)
| OutOfFuel.

Arguments Ok {A} a.
Arguments Raise {A} e.
Arguments OutOfFuel {A}.

Definition bind {A B : Type} (r : result A) (f : A -> result B) : result B :=
  match r with
  | Ok a => f a
  | Raise e => Raise e
  | OutOfFuel => OutOfFuel
  end.

Notation "x <- r ;; k" := (bind r (fun x => k))
  (at level 61, r at next level, right associativity).

(** ** The converter *)

(** [len(x)]: defined on lists, dicts and strings; [len] of a number, of a
    boolean or of [None] raises [TypeError]. *)
Definition py_len (x : Json) : result nat :=
  match x with
  | JList l => Ok (List.length l)
  | JDict d => Ok (List.length d)
  | JString s => Ok (String.length s)
  | _ => Raise TypeError
  end.

(** [json_content.get("anyOf", [])], on the present state of the root. *)
Definition get_anyOf_or_empty (json_content : Json) : result Json :=
  match json_content with
  | JDict d =>
      match Dict.get "anyOf" d with
      | Some v => Ok v
      | None => Ok (JList [])
      end
  | _ => Raise AttributeError
  end.

(** [isinstance(item, dict) and item.get("type") == "null"] *)
Definition is_null_type (item : Json) : bool :=
  match item with
  | JDict d =>
      match Dict.get "type" d with
      | Some (JString s) => String.eqb s "null"
      | _ => false
      end
  | _ => false
  end.

(** The list comprehension of line 25. *)
Definition drop_null_types (items : list Json) : list Json :=
  filter (fun item => negb (is_null_type item)) items.

(** Lines 24-27, "Handle `anyOf` conversion".  The first branch is the case
    ["anyOf" in yaml_dict and isinstance(yaml_dict["anyOf"], list)].
    [root_of] rebuilds [json_content] from the present contents of
    [yaml_dict]; the comparison of line 26 is made after the assignment of
    line 25, and its right operand raises when the root holds a number, a
    boolean or [None] under ["anyOf"]. *)
Definition handle_anyOf (root_of : Json -> Json) (yaml_dict : Dict.t)
  : result Dict.t :=
  match Dict.get "anyOf" yaml_dict with
  | Some (JList items) =>
      let kept := drop_null_types items in
      let yaml_dict := Dict.set "anyOf" (JList kept) yaml_dict in
      root_anyOf <- get_anyOf_or_empty (root_of (JDict yaml_dict)) ;;
      n <- py_len root_anyOf ;;
      if Nat.ltb (List.length kept) n
      then Ok (Dict.set "nullable" (JBool true) yaml_dict)
      else Ok yaml_dict
  | _ => Ok yaml_dict
  end.

(** Lines 30-33, "Convert `examples` to `example`".  [Some examples] is the
    case ["examples" in yaml_dict], [examples] the value [pop] returns; the
    test of line 32 holds of a list that is not empty. *)
Definition convert_examples (yaml_dict : Dict.t) : Dict.t :=
  match Dict.get "examples" yaml_dict with
  | Some examples =>
      let yaml_dict := Dict.pop "examples" yaml_dict in
      match examples with
      | JList (first :: _) => Dict.set "example" first yaml_dict
      | _ => yaml_dict
      end
  | None => yaml_dict
  end.

(** [for value in yaml_dict.values(): inner(value)].  [done] holds the
    entries already visited, in their state after the visit; while the value
    of [k] is visited, the dict is [done ++ (k, value) :: rest]. *)
Fixpoint for_values (visit : (Json -> Json) -> Json -> result Json)
    (root_of : Dict.t -> Json) (done todo : Dict.t) : result Dict.t :=
  match todo with
  | [] => Ok done
  | (k, value) :: rest =>
      value' <- visit (fun x => root_of (done ++ (k, x) :: rest)) value ;;
      for_values visit root_of (done ++ [(k, value')]) rest
  end.

(** [for item in yaml_dict: inner(item)], on a list. *)
Fixpoint for_items (visit : (Json -> Json) -> Json -> result Json)
    (root_of : list Json -> Json) (done todo : list Json)
  : result (list Json) :=
  match todo with
  | [] => Ok done
  | item :: rest =>
      item' <- visit (fun x => root_of (done ++ x :: rest)) item ;;
      for_items visit root_of (done ++ [item']) rest
  end.

(** [inner(yaml_dict)].  The Python function returns nothing and leaves its
    argument rewritten; the model returns the rewritten argument.  The
    recursion goes through the values of the rewritten dict, which is not a
    part of the argument, hence the fuel: one unit per level of nesting. *)
Fixpoint inner (fuel : nat) (root_of : Json -> Json) (yaml_dict : Json)
  : result Json :=
  match fuel with
  | O => OutOfFuel
  | S fuel =>
      match yaml_dict with
      | JDict d =>
          d <- handle_anyOf root_of d ;;
          let d := convert_examples d in
          d <- for_values (inner fuel) (fun x => root_of (JDict x)) [] d ;;
          Ok (JDict d)
      | JList l =>
          l <- for_items (inner fuel) (fun x => root_of (JList x)) [] l ;;
          Ok (JList l)
      | _ => Ok yaml_dict
      end
  end.

(** The nesting depth of a value. *)
Fixpoint depth (j : Json) : nat :=
  match j with
  | JList l => S (fold_right (fun x acc => Nat.max (depth x) acc) 0 l)
  | JDict d => S (fold_right (fun e acc => Nat.max (depth (snd e)) acc) 0 d)
  | _ => 0
  end.

(** [convert_3_dot_1_to_3_dot_0(json_content)].  Line 18 is an item
    assignment: it raises [TypeError] on anything but a dict (a list wants
    an integer index, the other values support no item assignment).  The
    walk starts at the root, where the node is the document. *)
Definition convert_3_dot_1_to_3_dot_0 (json_content : Json) : result Json :=
  match json_content with
  | JDict d =>
      let json_content := JDict (Dict.set "openapi" (JString "3.0.2") d) in
      inner (S (depth json_content)) (fun x => x) json_content
  | _ => Raise TypeError
  end.

(** ** The caller: [load_and_convert] *)

(** What a path holds, as far as [load_and_convert] can tell: a text that
    [json.load] parses to [content] (and [json.dump] writes such a text for
    [content]), a text that [json.load] rejects with [JSONDecodeError], or
    something that [open] or the read refuses with another exception
    ([PermissionError], [IsADirectoryError], [UnicodeDecodeError]). *)
Inductive file : Type :=
| JsonText (content : Json)
| NotJson
| Unreadable.

(** What [open(path, "w")] can raise. *)
Inductive os_error : Type :=
| FileNotFoundError
| OtherOSError.

(** What becomes of lines 61-62 once the destination is open (and empty):
    [json.dump] and the flush at the end of the [with] block succeed;
    [json.dump] raises ([OSError] of a write, [RecursionError] of the
    encoder); or the flush raises, after line 62 has logged. *)
Inductive write_outcome : Type :=
| Written
| DumpRaises
| FlushRaises.

(** The four records the function logs, without the text of the exception. *)
Inductive log_record : Type :=
| InfoLoaded (source_path : string)
| InfoSaved (dest_path : string)
| ErrorProcessingFile
| UnexpectedError.

(** The file system and the log.  [files w p = None]: no file at [p], and
    [open(p, "r")] raises [FileNotFoundError].  [refused w p]: what
    [open(p, "w")] raises, when it does not open [p].  [writing w p]: what
    becomes of a write to [p]. *)
Record World : Type := {
  files : string -> option file;
  refused : string -> option os_error;
  writing : string -> write_outcome;
  log : list log_record
}.

Definition add_log (r : log_record) (w : World) : World :=
  {| files := files w; refused := refused w; writing := writing w;
     log := log w ++ [r] |}.

Definition write_file (path : string) (f : file) (w : World) : World :=
  {| files := fun p => if String.eqb p path then Some f else files w p;
     refused := refused w;
     writing := writing w;
     log := log w |}.

(** [load_and_convert(source_path, dest_path)], lines 53-67.  The two
    handlers: [FileNotFoundError] and [JSONDecodeError] are logged as "Error
    processing file", every other [Exception] as "Unexpected error"; the
    function itself raises nothing.  The destination is opened after the
    conversion, line 60; a write that fails leaves there the beginning of the
    text, which is no JSON text.  Every exception of the converter goes to
    the second handler: the [TypeError]s of the model, and the
    [RecursionError] of a document nested too deep, which the model of the
    converter does not raise. *)
Definition load_and_convert (source_path dest_path : string) (w : World)
  : World :=
  match files w source_path with
  | None => add_log ErrorProcessingFile w
  | Some NotJson => add_log ErrorProcessingFile w
  | Some Unreadable => add_log UnexpectedError w
  | Some (JsonText content) =>
      let w := add_log (InfoLoaded source_path) w in
      match convert_3_dot_1_to_3_dot_0 content with
      | Ok converted_content =>
          match refused w dest_path with
          | Some FileNotFoundError => add_log ErrorProcessingFile w
          | Some OtherOSError => add_log UnexpectedError w
          | None =>
              match writing w dest_path with
              | Written =>
                  add_log (InfoSaved dest_path)
                    (write_file dest_path (JsonText converted_content) w)
              | DumpRaises =>
                  add_log UnexpectedError (write_file dest_path NotJson w)
              | FlushRaises =>
                  add_log UnexpectedError
                    (add_log (InfoSaved dest_path)
                       (write_file dest_path NotJson w))
              end
          end
      | _ => add_log UnexpectedError w
      end
  end.

(** ** Documents used below *)

Definition ty (s : string) : Json := JDict [("type", JString s)].

Definition num (z : Z) : Json := JNumber (Int z).

(** The document of the specification's end-to-end example, what the
    specification expects for it, and what the converter returns. *)
Definition pet : Dict.t :=
  [("anyOf", JList [ty "object"; ty "null"]);
   ("examples", JList [JDict [("id", num 1)]])].

Definition pet_root : Dict.t :=
  [("openapi", JString "3.1.0");
   ("components", JDict [("schemas", JDict [("Pet", JDict pet)])])].

Definition pet_doc : Json := JDict pet_root.

Definition pet_expected : Json :=
  JDict [("openapi", JString "3.0.2");
         ("components", JDict [("schemas", JDict [("Pet",
            JDict [("anyOf", JList [ty "object"]);
                   ("nullable", JBool true);
                   ("example", JDict [("id", num 1)])])])])].

Definition pet_converted : Dict.t :=
  [("anyOf", JList [ty "object"]); ("example", JDict [("id", num 1)])].

Definition pet_returned : Json :=
  JDict [("openapi", JString "3.0.2");
         ("components",
          JDict [("schemas", JDict [("Pet", JDict pet_converted)])])].

(** A schema with the [anyOf] of the specification's "Nullable flag
    correctness" property, below a root without [anyOf]. *)
Definition optional_string : Dict.t :=
  [("anyOf", JList [ty "string"; ty "null"])].

Definition optional_string_doc : Json :=
  JDict [("openapi", JString "3.1.0"); ("schema", JDict optional_string)].

(** A node whose first example has examples of its own. *)
Definition nested_examples : Dict.t :=
  [("examples", JList [JDict [("examples", JList [num 1])]; num 2])].

(** A node whose [anyOf] has no null-typed entry, and an entry with
    examples. *)
Definition string_with_examples : Json :=
  JDict [("type", JString "string");
         ("examples", JList [JString "a"; JString "b"])].

Definition string_or_integer : Dict.t :=
  [("anyOf", JList [string_with_examples; ty "integer"])].

Definition nested_examples_doc : Json :=
  JDict [("openapi", JString "3.1.0"); ("schema", JDict nested_examples)].

Definition string_or_integer_doc : Json :=
  JDict [("openapi", JString "3.1.0"); ("schema", JDict string_or_integer)].

(** A document with nothing to convert: the version is 3.0.2, no [anyOf]
    has a null-typed entry, there is no [examples]. *)
Definition clean_doc : Json :=
  JDict [("openapi", JString "3.0.2");
         ("anyOf", JList [ty "string"; ty "integer"]);
         ("x", JDict [("anyOf", JList [ty "string"])])].

Definition clean_returned : Json :=
  JDict [("openapi", JString "3.0.2");
         ("anyOf", JList [ty "string"; ty "integer"]);
         ("x", JDict [("anyOf", JList [ty "string"]);
                      ("nullable", JBool true)])].

(** A document whose root holds a dict under [anyOf]. *)
Definition drift_doc : Json :=
  JDict [("openapi", JString "3.1.0");
         ("a", JDict [("anyOf", JList [ty "string"; ty "integer"])]);
         ("anyOf", JDict [("anyOf", JList []); ("x", num 1)])].

Definition drift_once : Json :=
  JDict [("openapi", JString "3.0.2");
         ("a", JDict [("anyOf", JList [ty "string"; ty "integer"])]);
         ("anyOf", JDict [("anyOf", JList []); ("x", num 1);
                          ("nullable", JBool true)])].

Definition drift_twice : Json :=
  JDict [("openapi", JString "3.0.2");
         ("a", JDict [("anyOf", JList [ty "string"; ty "integer"]);
                      ("nullable", JBool true)]);
         ("anyOf", JDict [("anyOf", JList []); ("x", num 1);
                          ("nullable", JBool true)])].

(** A document on which the converter raises. *)
Definition unsized_doc : Json :=
  JDict [("anyOf", num 5); ("x", JDict [("anyOf", JList [])])].

(** ** Relations used in the statements *)

(** [subnode n j]: [n] is [j], or is reached from [j] through values of
    dicts and items of lists. *)
Inductive subnode (n : Json) : Json -> Prop :=
| subnode_here : subnode n n
| subnode_item (l : list Json) (x : Json) :
    In x l -> subnode n x -> subnode n (JList l)
| subnode_value (d : Dict.t) (k : string) (v : Json) :
    In (k, v) d -> subnode n v -> subnode n (JDict d).

(** [converts_to v v']: some call of [inner] on [v], somewhere in some
    document, leaves [v']. *)
Definition converts_to (v v' : Json) : Prop :=
  exists fuel root_of, inner fuel root_of v = Ok v'.

(** What a visit of [inner], with [fuel] units, turns a value into. *)
Definition visits (fuel : nat) (v v' : Json) : Prop :=
  exists root_of, inner fuel root_of v = Ok v'.

(** What the specification asks of every Object of a converted tree. *)
Definition no_examples (d : Dict.t) : Prop := Dict.get "examples" d = None.

Definition no_null_branch (d : Dict.t) : Prop :=
  forall items item,
    Dict.get "anyOf" d = Some (JList items) -> In item items ->
    is_null_type item = false.

(** The field [k] after a visit of the node: absent if it was absent, and
    otherwise the value it had, visited in its turn. *)
Definition field_kept (k : string) (d d' : Dict.t) : Prop :=
  match Dict.get k d with
  | Some v => exists v', Dict.get k d' = Some v' /\ converts_to v v'
  | None => Dict.get k d' = None
  end.

(** The keys of every Object of the tree are pairwise different, as in any
    value [json.load] builds. *)
Definition unique_keys (j : Json) : Prop :=
  forall d, subnode (JDict d) j -> NoDup (Dict.keys d).

(** Nothing is left to convert in the tree. *)
Definition converted (j : Json) : Prop :=
  forall d, subnode (JDict d) j -> no_examples d /\ no_null_branch d.

(** [json_content.get("anyOf", [])] is empty, whatever the node holds. *)
Definition no_root_anyOf (root_of : Json -> Json) : Prop :=
  forall x, get_anyOf_or_empty (root_of x) = Ok (JList []).

(** Every value of [d] is at most [b] deep. *)
Definition values_below (b : nat) (d : Dict.t) : Prop :=
  forall k v, In (k, v) d -> depth v <= b.

(** Two dicts with the same keys in the same order and related values. *)
Definition same_keys (R : Json -> Json -> Prop) (d d' : Dict.t) : Prop :=
  Forall2 (fun e e' => fst e = fst e' /\ R (snd e) (snd e')) d d'.

(** The keys the two rewrites of [inner] write to. *)
Definition rewritten_key (k : string) : bool :=
  String.eqb k "anyOf" || String.eqb k "nullable"
  || String.eqb k "examples" || String.eqb k "example".

Definition is_list (j : Json) : bool :=
  match j with JList _ => true | _ => false end.

Definition is_dict (j : Json) : bool :=
  match j with JDict _ => true | _ => false end.

Definition is_scalar (j : Json) : bool := negb (is_list j || is_dict j).

(** ** Values that have a length *)

(** The values [len] accepts: lists, dicts and strings. *)
Definition sized (v : Json) : bool :=
  match v with
  | JList _ | JDict _ | JString _ => true
  | _ => false
  end.

(** The right operand of line 26 can be computed on the document [root]. *)
Definition root_sized (root : Json) : Prop :=
  exists n, (root_anyOf <- get_anyOf_or_empty root ;; py_len root_anyOf) = Ok n.

(** [P] holds of every Object of the tree. *)
Definition all_dicts (P : Dict.t -> Prop) (j : Json) : Prop :=
  forall d, subnode (JDict d) j -> P d.

(** The same, computed, for a test [f] on Objects. *)
Fixpoint all_dictsb (f : Dict.t -> bool) (j : Json) : bool :=
  match j with
  | JDict d => f d && forallb (fun e => all_dictsb f (snd e)) d
  | JList l => forallb (all_dictsb f) l
  | _ => true
  end.

(** Tests for the properties of an Object used below. *)
Fixpoint distinct (ks : list string) : bool :=
  match ks with
  | [] => true
  | k :: rest => negb (existsb (String.eqb k) rest) && distinct rest
  end.

Definition nothing_to_convert (d : Dict.t) : bool :=
  match Dict.get "examples" d with
  | Some _ => false
  | None =>
      match Dict.get "anyOf" d with
      | Some (JList items) => forallb (fun item => negb (is_null_type item)) items
      | _ => true
      end
  end.

(** * Proofs *)

(** ** Dicts *)

Module DictFacts.
Import Dict.

Lemma get_set_same k v d : get k (set k v d) = Some v.
Proof.
  induction d as [|[k' v'] d IH]; simpl.
  - now rewrite String.eqb_refl.
  - destruct (String.eqb k k') eqn:E; simpl; rewrite E; auto.
Qed.

Lemma get_set_other k k' v d : k <> k' -> get k (set k' v d) = get k d.
Proof.
  intros Hne. induction d as [|[k0 v0] d IH]; simpl.
  - apply String.eqb_neq in Hne. now rewrite Hne.
  - destruct (String.eqb k' k0) eqn:E; simpl.
    + apply String.eqb_eq in E. subst k0.
      apply String.eqb_neq in Hne. now rewrite Hne.
    + now rewrite IH.
Qed.

Lemma get_pop_same k d : get k (pop k d) = None.
Proof.
  induction d as [|[k' v'] d IH]; simpl; auto.
  destruct (String.eqb k k') eqn:E; simpl; auto. now rewrite E.
Qed.

Lemma get_pop_other k k' d : k <> k' -> get k (pop k' d) = get k d.
Proof.
  intros Hne. induction d as [|[k0 v0] d IH]; simpl; auto.
  destruct (String.eqb k' k0) eqn:E; simpl.
  - apply String.eqb_eq in E. subst k0.
    apply String.eqb_neq in Hne. now rewrite Hne.
  - now rewrite IH.
Qed.

Lemma get_In k v d : get k d = Some v -> In (k, v) d.
Proof.
  induction d as [|[k' v'] d IH]; simpl; [discriminate|].
  destruct (String.eqb k k') eqn:E.
  - apply String.eqb_eq in E. intros [= ->]. left. now subst.
  - auto.
Qed.

(** Related dicts answer [get] alike. *)
Lemma get_same_keys R d d' k :
  same_keys R d d' ->
  match get k d with
  | Some v => exists v', get k d' = Some v' /\ R v v'
  | None => get k d' = None
  end.
Proof.
  induction 1 as [|[k1 v1] [k2 v2] d d' [Hk Hv] _ IH]; simpl in *; auto.
  subst k2. destruct (String.eqb k k1); eauto.
Qed.

Lemma get_same_keys_Some R d d' k v :
  same_keys R d d' -> get k d = Some v ->
  exists v', get k d' = Some v' /\ R v v'.
Proof. intros H E. pose proof (get_same_keys R d d' k H) as G. now rewrite E in G. Qed.

Lemma get_same_keys_None R d d' k :
  same_keys R d d' -> get k d = None -> get k d' = None.
Proof. intros H E. pose proof (get_same_keys R d d' k H) as G. now rewrite E in G. Qed.

Lemma get_same_keys_inv R d d' k v' :
  same_keys R d d' -> get k d' = Some v' ->
  exists v, get k d = Some v /\ R v v'.
Proof.
  intros H E. pose proof (get_same_keys R d d' k H) as G.
  destruct (get k d) as [v|].
  - destruct G as (w & Hw & HR). exists v. split; auto. congruence.
  - congruence.
Qed.

Lemma In_same_keys_inv R d d' k v' :
  same_keys R d d' -> In (k, v') d' -> exists v, In (k, v) d /\ R v v'.
Proof.
  induction 1 as [|[k1 v1] [k2 v2] d d' [Hk Hv] _ IH]; simpl in *.
  - tauto.
  - intros [[= -> ->]| Hin].
    + subst k1. eauto.
    + destruct (IH Hin) as (v & ? & ?). eauto.
Qed.

End DictFacts.

(** ** The monad *)

Lemma bind_Ok {A B} (r : result A) (f : A -> result B) (b : B) :
  bind r f = Ok b -> exists a, r = Ok a /\ f a = Ok b.
Proof. destruct r; simpl; intros H; try discriminate. eauto. Qed.

Ltac inv_bind H :=
  let a := fresh "a" in
  let Ha := fresh "Ha" in
  apply bind_Ok in H; destruct H as (a & Ha & H).

(** ** The two loops *)

Lemma visits_converts fuel v v' : visits fuel v v' -> converts_to v v'.
Proof. intros [root_of H]. now exists fuel, root_of. Qed.

Lemma for_values_inv visit root_of todo :
  forall done out,
    for_values visit root_of done todo = Ok out ->
    exists todo',
      out = done ++ todo' /\
      same_keys (fun v v' => exists r, visit r v = Ok v') todo todo'.
Proof.
  induction todo as [|[k v] rest IH]; simpl; intros done out H.
  - injection H as <-. exists []. rewrite app_nil_r. split; constructor.
  - inv_bind H. destruct (IH _ _ H) as (todo' & -> & HF).
    exists ((k, a) :: todo'). rewrite <- app_assoc. split; [reflexivity|].
    constructor; simpl; eauto.
Qed.

Lemma for_items_inv visit root_of todo :
  forall done out,
    for_items visit root_of done todo = Ok out ->
    exists todo',
      out = done ++ todo' /\
      Forall2 (fun v v' => exists r, visit r v = Ok v') todo todo'.
Proof.
  induction todo as [|v rest IH]; simpl; intros done out H.
  - injection H as <-. exists []. rewrite app_nil_r. split; constructor.
  - inv_bind H. destruct (IH _ _ H) as (todo' & -> & HF).
    exists (a :: todo'). rewrite <- app_assoc. split; [reflexivity|].
    constructor; eauto.
Qed.

(** ** Inversion of [inner] *)

Lemma inner_dict_inv fuel root_of d out :
  inner fuel root_of (JDict d) = Ok out ->
  exists n d1 d',
    fuel = S n /\ handle_anyOf root_of d = Ok d1 /\ out = JDict d' /\
    same_keys (visits n) (convert_examples d1) d'.
Proof.
  destruct fuel as [|n]; simpl; [discriminate|]. intros H.
  inv_bind H. inv_bind H. injection H as <-.
  apply for_values_inv in Ha0. destruct Ha0 as (d' & -> & HF).
  exists n, a, d'. simpl. repeat split; auto.
Qed.

Lemma inner_list_inv fuel root_of l out :
  inner fuel root_of (JList l) = Ok out ->
  exists n l', fuel = S n /\ out = JList l' /\ Forall2 (visits n) l l'.
Proof.
  destruct fuel as [|n]; simpl; [discriminate|]. intros H.
  inv_bind H. injection H as <-.
  apply for_items_inv in Ha. destruct Ha as (l' & -> & HF).
  exists n, l'. simpl. repeat split; auto.
Qed.

Lemma inner_scalar fuel root_of j out :
  is_scalar j = true -> inner fuel root_of j = Ok out -> out = j.
Proof.
  destruct fuel as [|n]; simpl; [discriminate|].
  destruct j; simpl; try discriminate; congruence.
Qed.

(** A visit keeps the kind of a value; scalars are left as they are. *)
Lemma converts_to_scalar v v' :
  converts_to v v' -> is_scalar v = true -> v' = v.
Proof. intros (fuel & r & H) Hs. eapply inner_scalar; eauto. Qed.

Lemma converts_to_list l v' :
  converts_to (JList l) v' -> exists l', v' = JList l' /\ Forall2 converts_to l l'.
Proof.
  intros (fuel & r & H). apply inner_list_inv in H.
  destruct H as (n & l' & _ & -> & HF). exists l'. split; auto.
  eapply Forall2_impl; [|exact HF]. intros; eapply visits_converts; eauto.
Qed.

Lemma converts_to_is_list v v' : converts_to v v' -> is_list v' = is_list v.
Proof.
  intros H. destruct v;
    try (rewrite (converts_to_scalar _ _ H); reflexivity).
  - apply converts_to_list in H. now destruct H as (? & -> & _).
  - destruct H as (fuel & r & H). apply inner_dict_inv in H.
    now destruct H as (? & ? & ? & _ & _ & -> & _).
Qed.

Lemma converts_to_is_dict v v' : converts_to v v' -> is_dict v' = is_dict v.
Proof.
  intros H. destruct v;
    try (rewrite (converts_to_scalar _ _ H); reflexivity).
  - apply converts_to_list in H. now destruct H as (? & -> & _).
  - destruct H as (fuel & r & H). apply inner_dict_inv in H.
    now destruct H as (? & ? & ? & _ & _ & -> & _).
Qed.

Lemma converts_to_string v s : converts_to v (JString s) -> v = JString s.
Proof.
  intros H. destruct v;
    try (now rewrite <- (converts_to_scalar _ _ H)).
  - apply converts_to_list in H. now destruct H as (? & ? & _).
  - destruct H as (fuel & r & H). apply inner_dict_inv in H.
    now destruct H as (? & ? & ? & _ & _ & ? & _).
Qed.

(** ** The two rewrites *)

Section Rewrites.
Import Dict DictFacts.

(** The outcomes of lines 24-27. *)
Lemma handle_anyOf_cases root_of d d1 :
  handle_anyOf root_of d = Ok d1 ->
  (exists items,
      get "anyOf" d = Some (JList items) /\
      let d0 := set "anyOf" (JList (drop_null_types items)) d in
      d1 = d0 \/ d1 = set "nullable" (JBool true) d0)
  \/ ((forall items, get "anyOf" d <> Some (JList items)) /\ d1 = d).
Proof.
  unfold handle_anyOf. intros H.
  destruct (get "anyOf" d) as [[| | | |items|]|] eqn:E;
    try (right; split; [intros ?; discriminate | congruence]).
  left. exists items. split; [reflexivity|].
  inv_bind H. inv_bind H.
  destruct (Nat.ltb _ _); injection H as <-; auto.
Qed.

Lemma handle_anyOf_not_list root_of d :
  (forall items, get "anyOf" d <> Some (JList items)) ->
  handle_anyOf root_of d = Ok d.
Proof.
  unfold handle_anyOf. intros H.
  destruct (get "anyOf" d) as [[| | | |items|]|] eqn:E; try reflexivity.
  now destruct (H items).
Qed.

Lemma handle_anyOf_get root_of d d1 k :
  handle_anyOf root_of d = Ok d1 ->
  k <> "anyOf" -> k <> "nullable" -> get k d1 = get k d.
Proof.
  intros H Ha Hn. apply handle_anyOf_cases in H.
  destruct H as [(items & _ & [-> | ->]) | [_ ->]]; auto;
    now rewrite ?get_set_other by assumption.
Qed.

Lemma handle_anyOf_get_anyOf root_of d d1 :
  handle_anyOf root_of d = Ok d1 ->
  get "anyOf" d1 =
    match get "anyOf" d with
    | Some (JList items) => Some (JList (drop_null_types items))
    | other => other
    end.
Proof.
  intros H. apply handle_anyOf_cases in H.
  destruct H as [(items & E & [-> | ->]) | [N ->]].
  - now rewrite E, get_set_same.
  - rewrite E, get_set_other by discriminate. apply get_set_same.
  - destruct (get "anyOf" d) as [[| | | |items|]|]; auto. now destruct (N items).
Qed.

Lemma handle_anyOf_get_nullable root_of d d1 :
  handle_anyOf root_of d = Ok d1 ->
  get "nullable" d1 = get "nullable" d \/
  get "nullable" d1 = Some (JBool true).
Proof.
  intros H. apply handle_anyOf_cases in H.
  destruct H as [(items & E & [-> | ->]) | [N ->]]; auto.
  - left. now rewrite get_set_other by discriminate.
  - right. apply get_set_same.
Qed.

(** The outcomes of lines 30-33. *)
Lemma convert_examples_get_examples d :
  get "examples" (convert_examples d) = None.
Proof.
  unfold convert_examples.
  destruct (get "examples" d) as [[| | | |[|first rest]|]|] eqn:E; auto;
    try apply get_pop_same.
  rewrite get_set_other by discriminate. apply get_pop_same.
Qed.

Lemma convert_examples_get d k :
  k <> "examples" -> k <> "example" ->
  get k (convert_examples d) = get k d.
Proof.
  intros H1 H2. unfold convert_examples.
  destruct (get "examples" d) as [[| | | |[|first rest]|]|] eqn:E; auto;
    rewrite ?get_set_other by assumption; now apply get_pop_other.
Qed.

Lemma convert_examples_get_example d :
  get "example" (convert_examples d) =
    match get "examples" d with
    | Some (JList (first :: _)) => Some first
    | _ => get "example" d
    end.
Proof.
  unfold convert_examples.
  destruct (get "examples" d) as [[| | | |[|first rest]|]|] eqn:E; auto;
    try (apply get_pop_other; discriminate).
  apply get_set_same.
Qed.

Lemma drop_null_types_In item items :
  In item (drop_null_types items) -> is_null_type item = false.
Proof.
  unfold drop_null_types. intros H. apply filter_In in H.
  destruct H as [_ H]. now apply negb_true_iff in H.
Qed.

Lemma drop_null_types_id items :
  (forall item, In item items -> is_null_type item = false) ->
  drop_null_types items = items.
Proof.
  unfold drop_null_types. induction items as [|x xs IH]; simpl; auto.
  intros H. rewrite (H x) by auto. simpl. f_equal. auto.
Qed.

End Rewrites.

(** ** One node *)

Section Node.
Import Dict DictFacts.

(** A key that neither rewrite writes to holds, after the visit of the
    node, the visited value it held before. *)
Lemma inner_dict_get fuel root_of d out k :
  inner fuel root_of (JDict d) = Ok out ->
  rewritten_key k = false ->
  exists d',
    out = JDict d' /\
    match get k d with
    | Some v => exists v', get k d' = Some v' /\ converts_to v v'
    | None => get k d' = None
    end.
Proof.
  intros H Hk. apply inner_dict_inv in H.
  destruct H as (n & d1 & d' & -> & H1 & -> & HF).
  unfold rewritten_key in Hk. repeat (apply orb_false_elim in Hk; destruct Hk as [Hk ?]).
  repeat match goal with E : String.eqb _ _ = false |- _ =>
    apply String.eqb_neq in E end.
  exists d'. split; auto.
  assert (E : get k (convert_examples d1) = get k d).
  { rewrite convert_examples_get by assumption.
    eapply handle_anyOf_get; eauto. }
  pose proof (get_same_keys _ _ _ k HF) as G. rewrite E in G.
  destruct (get k d); auto.
  destruct G as (v' & ? & ?). exists v'. split; auto.
  eapply visits_converts; eauto.
Qed.

(** A visit does not make, nor unmake, a null-typed entry. *)
Lemma converts_to_null_type x x' :
  converts_to x x' -> is_null_type x' = is_null_type x.
Proof.
  intros H. destruct x;
    try (rewrite (converts_to_scalar _ _ H); reflexivity).
  - apply converts_to_list in H. now destruct H as (? & -> & _).
  - destruct H as (fuel & r & H).
    destruct (inner_dict_get _ _ _ _ "type" H eq_refl) as (d' & -> & G).
    simpl. destruct (get "type" d) as [v|].
    + destruct G as (v' & -> & Hv).
      destruct v; try (rewrite (converts_to_scalar _ _ Hv); reflexivity);
        destruct v'; auto; apply converts_to_string in Hv; discriminate.
    + now rewrite G.
Qed.

End Node.

(** ** The whole tree *)

Section Tree.
Import Dict DictFacts.

Lemma Forall2_In_r {A B} (R : A -> B -> Prop) l l' y :
  Forall2 R l l' -> In y l' -> exists x, In x l /\ R x y.
Proof.
  induction 1 as [|a b l l' Hab _ IH]; simpl; [tauto|].
  intros [<- | Hin]; eauto.
  destruct (IH Hin) as (x & ? & ?). eauto.
Qed.

Lemma inner_dict_no_examples fuel root_of d d' :
  inner fuel root_of (JDict d) = Ok (JDict d') -> no_examples d'.
Proof.
  intros H. apply inner_dict_inv in H.
  destruct H as (n & d1 & d2 & -> & H1 & [= <-] & HF).
  eapply get_same_keys_None; eauto. apply convert_examples_get_examples.
Qed.

Lemma inner_dict_no_null_branch fuel root_of d d' :
  inner fuel root_of (JDict d) = Ok (JDict d') -> no_null_branch d'.
Proof.
  intros H. apply inner_dict_inv in H.
  destruct H as (n & d1 & d2 & -> & H1 & [= <-] & HF).
  intros items' item' E Hin.
  destruct (get_same_keys_inv _ _ _ _ _ HF E) as (v & Ev & Hv).
  apply visits_converts in Hv.
  pose proof (converts_to_is_list _ _ Hv) as Hl.
  destruct v as [| | | |items|]; try discriminate.
  apply converts_to_list in Hv. destruct Hv as (l' & [= <-] & HF').
  destruct (Forall2_In_r _ _ _ _ HF' Hin) as (item & Hitem & Hc).
  rewrite (converts_to_null_type _ _ Hc).
  rewrite convert_examples_get in Ev by discriminate.
  rewrite (handle_anyOf_get_anyOf _ _ _ H1) in Ev.
  destruct (get "anyOf" d) as [[| | | |l0|]|]; try discriminate.
  injection Ev as <-. eapply drop_null_types_In; eauto.
Qed.

(** Every Object of the tree a visit leaves has been through the two
    rewrites. *)
Lemma inner_subnodes (P : Dict.t -> Prop) :
  (forall fuel root_of d d',
      inner fuel root_of (JDict d) = Ok (JDict d') -> P d') ->
  forall fuel root_of j out,
    inner fuel root_of j = Ok out ->
    forall d, subnode (JDict d) out -> P d.
Proof.
  intros HP. induction fuel as [|n IH]; intros root_of j out H d Hsub.
  - discriminate.
  - destruct j.
    1-4: simpl in H; injection H as <-; inversion Hsub.
    + apply inner_list_inv in H. destruct H as (m & l' & [= <-] & -> & HF).
      inversion Hsub as [|l1 x Hin Hx|]; subst.
      destruct (Forall2_In_r _ _ _ _ HF Hin) as (x0 & _ & r & Hr).
      eapply IH; eauto.
    + pose proof H as H0. apply inner_dict_inv in H.
      destruct H as (m & d1 & d' & [= <-] & H1 & -> & HF).
      inversion Hsub as [| |d2 k v Hin Hv]; subst.
      * eapply HP; eauto.
      * destruct (In_same_keys_inv _ _ _ _ _ HF Hin) as (v0 & _ & r & Hr).
        eapply IH; eauto.
Qed.

End Tree.

(** ** Fuel *)

Section Fuel.
Import Dict DictFacts.

Lemma depth_item x l : In x l -> depth x < depth (JList l).
Proof.
  simpl. induction l as [|y l IH]; simpl; [tauto|].
  intros [-> | Hin]; [lia|]. specialize (IH Hin). lia.
Qed.

Lemma depth_value k v d : In (k, v) d -> depth v < depth (JDict d).
Proof.
  simpl. induction d as [|[k' v'] d IH]; simpl; [tauto|].
  intros [[= -> ->] | Hin]; [lia|]. specialize (IH Hin). lia.
Qed.

Lemma depth_drop_null_types l :
  depth (JList (drop_null_types l)) <= depth (JList l).
Proof.
  simpl. apply le_n_S. induction l as [|x l IH]; simpl; auto.
  destruct (is_null_type x); simpl; lia.
Qed.

Lemma values_below_set b k v d :
  depth v <= b -> values_below b d -> values_below b (set k v d).
Proof.
  intros Hv. induction d as [|[k' v'] d IH]; simpl; intros Hd k0 v0.
  - intros [[= <- <-] | []]. exact Hv.
  - destruct (String.eqb k k'); simpl.
    + intros [[= <- <-] | Hin]; [exact Hv|]. apply (Hd k0 v0). now right.
    + intros [[= <- <-] | Hin]; [apply (Hd k' v'); now left|].
      apply (IH (fun k1 v1 H => Hd k1 v1 (or_intror H)) k0 v0 Hin).
Qed.

Lemma values_below_pop b k d :
  values_below b d -> values_below b (pop k d).
Proof.
  intros Hd k0 v0 Hin. apply filter_In in Hin. now apply (Hd k0 v0).
Qed.

Lemma values_below_get b k v d :
  values_below b d -> get k d = Some v -> depth v <= b.
Proof. intros Hd E. apply (Hd k v). now apply get_In. Qed.

Lemma handle_anyOf_below b root_of d d1 :
  handle_anyOf root_of d = Ok d1 -> values_below b d -> values_below b d1.
Proof.
  intros H Hd. apply handle_anyOf_cases in H.
  assert (Hk : forall items, get "anyOf" d = Some (JList items) ->
               values_below b (set "anyOf" (JList (drop_null_types items)) d)).
  { intros items E. apply values_below_set; auto.
    etransitivity; [apply depth_drop_null_types|].
    eapply values_below_get; eauto. }
  destruct H as [(items & E & [-> | ->]) | [_ ->]]; auto.
  apply values_below_set; simpl; auto with arith.
Qed.

Lemma convert_examples_below b d :
  values_below b d -> values_below b (convert_examples d).
Proof.
  intros Hd. unfold convert_examples.
  destruct (get "examples" d) as [[| | | |[|first rest]|]|] eqn:E; auto;
    try (now apply values_below_pop).
  apply values_below_set; [|now apply values_below_pop].
  pose proof (values_below_get _ _ _ _ Hd E) as Hb.
  pose proof (depth_item first (first :: rest) (or_introl eq_refl)). lia.
Qed.

Lemma handle_anyOf_fuel root_of d : handle_anyOf root_of d <> OutOfFuel.
Proof.
  unfold handle_anyOf.
  destruct (get "anyOf" d) as [[| | | |items|]|]; try discriminate.
  destruct (get_anyOf_or_empty _) as [a| |] eqn:E; simpl; try discriminate.
  - destruct a; simpl; try discriminate; destruct (Nat.ltb _ _); discriminate.
  - unfold get_anyOf_or_empty in E.
    destruct (root_of _); try discriminate. destruct (get _ _); discriminate.
Qed.

Lemma for_values_fuel visit todo :
  (forall k v, In (k, v) todo -> forall r, visit r v <> OutOfFuel) ->
  forall root_of done, for_values visit root_of done todo <> OutOfFuel.
Proof.
  induction todo as [|[k v] rest IH]; simpl; intros Hv root_of done.
  - discriminate.
  - destruct (visit _ v) eqn:E; simpl.
    + apply IH. intros; eapply Hv; eauto.
    + discriminate.
    + exfalso. eapply Hv; eauto.
Qed.

Lemma for_items_fuel visit todo :
  (forall v, In v todo -> forall r, visit r v <> OutOfFuel) ->
  forall root_of done, for_items visit root_of done todo <> OutOfFuel.
Proof.
  induction todo as [|v rest IH]; simpl; intros Hv root_of done.
  - discriminate.
  - destruct (visit _ v) eqn:E; simpl.
    + apply IH. intros; eapply Hv; eauto.
    + discriminate.
    + exfalso. eapply Hv; eauto.
Qed.

(** One unit of fuel per level of nesting is enough. *)
Lemma inner_fuel fuel :
  forall root_of j, depth j < fuel -> inner fuel root_of j <> OutOfFuel.
Proof.
  induction fuel as [|n IH]; intros root_of j Hd; [lia|].
  destruct j; try discriminate; cbn [inner].
  - pose proof (for_items_fuel (inner n) l) as F.
    destruct (for_items _ _ _ _) eqn:E; simpl; try discriminate.
    intros _. eapply F; [|exact E]. intros v Hin r. apply IH.
    pose proof (depth_item _ _ Hin). lia.
  - pose proof (handle_anyOf_fuel root_of d) as F1.
    destruct (handle_anyOf root_of d) as [d1| |] eqn:E1; simpl;
      try discriminate; try congruence.
    pose proof (for_values_fuel (inner n) (convert_examples d1)) as F.
    destruct (for_values _ _ _ _) eqn:E; simpl; try discriminate.
    intros _. eapply F; [|exact E]. intros k v Hin r. apply IH.
    assert (Hb : values_below (pred (depth (JDict d))) d).
    { intros k0 v0 H0. pose proof (depth_value _ _ _ H0). lia. }
    eapply handle_anyOf_below in Hb; eauto.
    apply convert_examples_below in Hb.
    specialize (Hb _ _ Hin). simpl in Hb, Hd. lia.
Qed.

(** The model of the converter never stops for lack of fuel. *)
Lemma convert_fuel json_content :
  convert_3_dot_1_to_3_dot_0 json_content <> OutOfFuel.
Proof.
  destruct json_content; try discriminate.
  unfold convert_3_dot_1_to_3_dot_0. apply inner_fuel. lia.
Qed.

End Fuel.

(** ** More fuel changes nothing *)

Section MoreFuel.

Variables visit visit' : (Json -> Json) -> Json -> result Json.
Hypothesis visit_le :
  forall r v res, visit r v = res -> res <> OutOfFuel -> visit' r v = res.

Lemma for_values_le todo :
  forall root_of done res,
    for_values visit root_of done todo = res -> res <> OutOfFuel ->
    for_values visit' root_of done todo = res.
Proof.
  induction todo as [|[k v] rest IH]; simpl; intros root_of done res H Hres.
  - exact H.
  - destruct (visit _ v) as [a|e|] eqn:E; simpl in H.
    + rewrite (visit_le _ _ _ E) by discriminate. simpl. now apply IH.
    + rewrite (visit_le _ _ _ E) by discriminate. exact H.
    + now subst res.
Qed.

Lemma for_items_le todo :
  forall root_of done res,
    for_items visit root_of done todo = res -> res <> OutOfFuel ->
    for_items visit' root_of done todo = res.
Proof.
  induction todo as [|v rest IH]; simpl; intros root_of done res H Hres.
  - exact H.
  - destruct (visit _ v) as [a|e|] eqn:E; simpl in H.
    + rewrite (visit_le _ _ _ E) by discriminate. simpl. now apply IH.
    + rewrite (visit_le _ _ _ E) by discriminate. exact H.
    + now subst res.
Qed.

End MoreFuel.

Lemma inner_S_fuel fuel :
  forall root_of j res,
    inner fuel root_of j = res -> res <> OutOfFuel ->
    inner (S fuel) root_of j = res.
Proof.
  induction fuel as [|n IH]; intros root_of j res H Hres.
  - simpl in H. now subst res.
  - destruct j; try exact H.
    + cbn [inner] in *.
      destruct (for_items (inner n) _ _ _) as [a|e|] eqn:E; simpl in H;
        try (now subst res);
        now rewrite (for_items_le _ _ IH _ _ _ _ E).
    + cbn [inner] in *.
      destruct (handle_anyOf root_of d) as [d1|e|]; simpl in *; auto.
      destruct (for_values (inner n) _ _ _) as [a|e|] eqn:E; simpl in H;
        try (now subst res);
        now rewrite (for_values_le _ _ IH _ _ _ _ E).
Qed.

Lemma inner_more_fuel fuel fuel' root_of j out :
  inner fuel root_of j = Ok out -> fuel <= fuel' ->
  inner fuel' root_of j = Ok out.
Proof.
  intros H Hle. induction Hle; auto.
  apply inner_S_fuel; [assumption | discriminate].
Qed.

(** ** The only exception is [TypeError] *)

Section Exceptions.

Lemma handle_anyOf_exn root_of d :
  is_dict (root_of (JDict (match Dict.get "anyOf" d with
                           | Some (JList items) =>
                               Dict.set "anyOf" (JList (drop_null_types items)) d
                           | _ => d
                           end))) = true ->
  handle_anyOf root_of d <> Raise AttributeError.
Proof.
  unfold handle_anyOf.
  destruct (Dict.get "anyOf" d) as [[| | | |items|]|]; try discriminate.
  intros H. destruct (root_of _) as [| | | | |r]; try discriminate. simpl.
  destruct (Dict.get "anyOf" r) as [[| | | | |]|]; simpl; try discriminate;
    destruct (Nat.ltb _ _); discriminate.
Qed.

Lemma for_values_exn visit todo :
  (forall r v, (forall x, is_dict (r x) = true) ->
               visit r v <> Raise AttributeError) ->
  forall root_of done,
    (forall x, is_dict (root_of x) = true) ->
    for_values visit root_of done todo <> Raise AttributeError.
Proof.
  intros Hv. induction todo as [|[k v] rest IH]; simpl; intros root_of done Hr.
  - discriminate.
  - destruct (visit _ v) as [a|e|] eqn:E; simpl.
    + now apply IH.
    + intros [= ->]. eapply Hv; [|exact E]. intros x. apply Hr.
    + discriminate.
Qed.

Lemma for_items_exn visit todo :
  (forall r v, (forall x, is_dict (r x) = true) ->
               visit r v <> Raise AttributeError) ->
  forall root_of done,
    (forall x, is_dict (root_of x) = true) ->
    for_items visit root_of done todo <> Raise AttributeError.
Proof.
  intros Hv. induction todo as [|v rest IH]; simpl; intros root_of done Hr.
  - discriminate.
  - destruct (visit _ v) as [a|e|] eqn:E; simpl.
    + now apply IH.
    + intros [= ->]. eapply Hv; [|exact E]. intros x. apply Hr.
    + discriminate.
Qed.

(** [json_content.get] is always called on a dict: the root is one, and
    stays one. *)
Lemma inner_exn fuel :
  forall root_of j,
    (forall x, is_dict x = is_dict j -> is_list x = is_list j ->
               is_dict (root_of x) = true) ->
    inner fuel root_of j <> Raise AttributeError.
Proof.
  induction fuel as [|n IH]; intros root_of j Hr; [discriminate|].
  assert (IH' : forall r v, (forall x, is_dict (r x) = true) ->
                            inner n r v <> Raise AttributeError).
  { intros r v H. apply IH. auto. }
  destruct j; try discriminate; cbn [inner].
  - pose proof (for_items_exn (inner n) l IH'
                  (fun x => root_of (JList x)) []) as F.
    destruct (for_items _ _ _ _); simpl; try discriminate.
    intros [= ->]. apply F; auto.
  - pose proof (handle_anyOf_exn root_of d) as F1.
    destruct (handle_anyOf root_of d) as [d1|e|]; simpl; try discriminate.
    + pose proof (for_values_exn (inner n) (convert_examples d1) IH'
                    (fun x => root_of (JDict x)) []) as F.
      destruct (for_values _ _ _ _); simpl; try discriminate.
      intros [= ->]. apply F; auto.
    + intros [= ->]. apply F1; auto.
Qed.

(** A call of the converter returns or raises [TypeError]. *)
Lemma convert_returns_or_raises json_content :
  (exists out, convert_3_dot_1_to_3_dot_0 json_content = Ok out) \/
  convert_3_dot_1_to_3_dot_0 json_content = Raise TypeError.
Proof.
  pose proof (convert_fuel json_content) as F.
  destruct json_content; try (right; reflexivity).
  unfold convert_3_dot_1_to_3_dot_0 in *.
  pose proof (inner_exn (S (depth (JDict (Dict.set "openapi" (JString "3.0.2") d))))
                (fun x => x) (JDict (Dict.set "openapi" (JString "3.0.2") d))) as X.
  destruct (inner _ _ _) as [out|[]|]; eauto.
  - exfalso. apply X; [|reflexivity]. intros []; simpl; congruence.
  - congruence.
Qed.

End Exceptions.

(** ** Fields that are kept *)

Lemma field_kept_same_keys n k d d' :
  same_keys (visits n) d d' -> field_kept k d d'.
Proof.
  intros HF. unfold field_kept.
  pose proof (DictFacts.get_same_keys _ _ _ k HF) as G.
  destruct (Dict.get k d); auto.
  destruct G as (v' & ? & ?). exists v'. split; auto.
  eapply visits_converts; eauto.
Qed.

Lemma field_kept_eq k d0 d d' :
  Dict.get k d = Dict.get k d0 -> field_kept k d d' -> field_kept k d0 d'.
Proof. unfold field_kept. now intros ->. Qed.

(** ** Documents without [anyOf] at the root *)

Section Returns.
Import Dict DictFacts.

Lemma get_None_keys k d : get k d = None <-> ~ In k (keys d).
Proof.
  induction d as [|[k' v'] d IH]; simpl; [tauto|].
  destruct (String.eqb k k') eqn:E.
  - apply String.eqb_eq in E. subst. split; [discriminate | tauto].
  - apply String.eqb_neq in E. rewrite IH. intuition congruence.
Qed.

Lemma get_same_key_list k d d' :
  keys d = keys d' -> get k d = None -> get k d' = None.
Proof. rewrite !get_None_keys. now intros ->. Qed.

Lemma for_values_returns visit todo :
  forall root_of done,
    (forall d, keys d = keys (done ++ todo) ->
               get_anyOf_or_empty (root_of d) = Ok (JList [])) ->
    (forall k v r,
        In (k, v) todo ->
        no_root_anyOf r ->
        exists out, visit r v = Ok out) ->
    exists out, for_values visit root_of done todo = Ok out.
Proof.
  induction todo as [|[k v] rest IH]; simpl; intros root_of done Hr Hv; eauto.
  destruct (Hv k v (fun x => root_of (done ++ (k, x) :: rest))) as (v' & E); auto.
  { intros x. apply Hr. unfold keys. now rewrite !map_app. }
  rewrite E. simpl. apply IH.
  - intros d Hd. apply Hr. rewrite Hd. unfold keys.
    rewrite <- app_assoc, !map_app. reflexivity.
  - intros; eapply Hv; eauto.
Qed.

Lemma for_items_returns visit todo :
  forall root_of done,
    (forall l, get_anyOf_or_empty (root_of l) = Ok (JList [])) ->
    (forall v r,
        In v todo ->
        no_root_anyOf r ->
        exists out, visit r v = Ok out) ->
    exists out, for_items visit root_of done todo = Ok out.
Proof.
  induction todo as [|v rest IH]; simpl; intros root_of done Hr Hv; eauto.
  destruct (Hv v (fun x => root_of (done ++ x :: rest))) as (v' & E); auto.
  { intros x. apply Hr. }
  rewrite E. simpl. apply IH; auto.
Qed.

Lemma handle_anyOf_returns root_of d :
  no_root_anyOf root_of ->
  exists d1, handle_anyOf root_of d = Ok d1.
Proof.
  intros Hr. unfold handle_anyOf.
  destruct (get "anyOf" d) as [[| | | |items|]|]; eauto.
  rewrite Hr. simpl. eauto.
Qed.

(** Below a root without [anyOf], every visit returns. *)
Lemma inner_returns fuel :
  forall root_of j,
    depth j < fuel ->
    no_root_anyOf root_of ->
    exists out, inner fuel root_of j = Ok out.
Proof.
  induction fuel as [|n IH]; intros root_of j Hd Hr; [lia|].
  destruct j; cbn [inner]; eauto.
  - destruct (for_items_returns (inner n) l (fun x => root_of (JList x)) [])
      as (l' & E); auto.
    + intros v r Hin Hx. apply IH; auto.
      pose proof (depth_item _ _ Hin). lia.
    + rewrite E. simpl. eauto.
  - destruct (handle_anyOf_returns root_of d Hr) as (d1 & E1).
    rewrite E1. simpl.
    destruct (for_values_returns (inner n) (convert_examples d1)
                (fun x => root_of (JDict x)) []) as (d' & E); auto.
    + intros k v r Hin Hx. apply IH; auto.
      assert (Hb : values_below (pred (depth (JDict d))) d).
      { intros k0 v0 H0. pose proof (depth_value _ _ _ H0). lia. }
      eapply handle_anyOf_below in Hb; eauto.
      apply convert_examples_below in Hb.
      specialize (Hb _ _ Hin). simpl in Hb, Hd. lia.
    + rewrite E. simpl. eauto.
Qed.

Lemma inner_root_returns fuel d :
  depth (JDict d) < fuel ->
  get "anyOf" d = None ->
  exists out, inner fuel (fun x => x) (JDict d) = Ok out.
Proof.
  intros Hd Ha. destruct fuel as [|n]; [lia|].
  cbn [inner]. rewrite handle_anyOf_not_list by (intros items; congruence).
  cbn [bind].
  assert (Hc : get "anyOf" (convert_examples d) = None).
  { now rewrite convert_examples_get by discriminate. }
  destruct (for_values_returns (inner n) (convert_examples d)
              (fun x => JDict x) []) as (d' & E).
  - intros d2 Hk. simpl. now rewrite (get_same_key_list _ _ _ (eq_sym Hk) Hc).
  - intros k v r Hin Hx. apply inner_returns; auto.
    assert (Hb : values_below (pred (depth (JDict d))) d).
    { intros k0 v0 H0. pose proof (depth_value _ _ _ H0). lia. }
    apply convert_examples_below in Hb.
    specialize (Hb _ _ Hin). simpl in Hb, Hd. lia.
  - rewrite E. simpl. eauto.
Qed.

(** The converter returns on every document whose root has no [anyOf]. *)
Lemma convert_returns d0 :
  get "anyOf" d0 = None ->
  exists out, convert_3_dot_1_to_3_dot_0 (JDict d0) = Ok out.
Proof.
  intros Hn. unfold convert_3_dot_1_to_3_dot_0.
  apply inner_root_returns; [lia|].
  now rewrite get_set_other by discriminate.
Qed.

End Returns.

(** Rule A in ordinary documents: below a root without [anyOf], the filter
    never sets [nullable]; the field is what it was. *)
Lemma nullable_kept_below_root_without_anyOf fuel root_of d d' :
  no_root_anyOf root_of ->
  inner fuel root_of (JDict d) = Ok (JDict d') ->
  field_kept "nullable" d d'.
Proof.
  intros Hr H. apply inner_dict_inv in H.
  destruct H as (n & d1 & d2 & -> & H1 & [= <-] & HF).
  eapply field_kept_eq; [|eapply field_kept_same_keys; eauto].
  rewrite convert_examples_get by discriminate.
  unfold handle_anyOf in H1.
  destruct (Dict.get "anyOf" d) as [[| | | |items|]|]; try congruence.
  rewrite Hr in H1. simpl in H1. injection H1 as <-.
  now rewrite DictFacts.get_set_other by discriminate.
Qed.

(** ** Unique keys *)

Section UniqueKeys.
Import Dict DictFacts.

Lemma keys_set k v d :
  keys (set k v d) = keys d \/
  (get k d = None /\ keys (set k v d) = keys d ++ [k]).
Proof.
  induction d as [|[k' v'] d IH]; simpl; auto.
  destruct (String.eqb k k') eqn:E; simpl; auto.
  destruct IH as [-> | [E' ->]]; auto.
Qed.

Lemma NoDup_keys_set k v d : NoDup (keys d) -> NoDup (keys (set k v d)).
Proof.
  intros H. destruct (keys_set k v d) as [-> | [E ->]]; auto.
  apply NoDup_app; auto.
  - repeat constructor. simpl. tauto.
  - intros x Hx [<- | []]. now apply get_None_keys in E.
Qed.

Lemma NoDup_keys_pop k d : NoDup (keys d) -> NoDup (keys (pop k d)).
Proof.
  unfold keys, pop. induction d as [|[k' v'] d IH]; simpl; auto.
  intros H. inversion H as [|? ? Hn Hd]; subst.
  destruct (String.eqb k k'); simpl; auto.
  constructor; auto. intros Hin. apply Hn.
  apply in_map_iff in Hin. destruct Hin as (e & <- & He).
  apply filter_In in He. apply in_map. tauto.
Qed.

Lemma keys_same_keys R d d' : same_keys R d d' -> keys d' = keys d.
Proof.
  induction 1 as [|e e' d d' [Hk _] _ IH]; simpl; auto. now rewrite Hk, IH.
Qed.

Lemma In_set k v d k0 v0 :
  In (k0, v0) (set k v d) -> (k0, v0) = (k, v) \/ In (k0, v0) d.
Proof.
  induction d as [|[k' v'] d IH]; simpl.
  - intros [[= <- <-] | []]. auto.
  - destruct (String.eqb k k') eqn:E; simpl.
    + apply String.eqb_eq in E. subst k'. intros [[= <- <-] | H]; auto.
    + intros [H | H]; auto. destruct (IH H); auto.
Qed.

Lemma In_pop k d k0 v0 : In (k0, v0) (pop k d) -> In (k0, v0) d.
Proof. unfold pop. intros H. now apply filter_In in H. Qed.

Lemma unique_keys_value d k v :
  unique_keys (JDict d) -> In (k, v) d -> unique_keys v.
Proof. intros H Hin d' Hs. apply H. eapply subnode_value; eauto. Qed.

Lemma unique_keys_item l x : unique_keys (JList l) -> In x l -> unique_keys x.
Proof. intros H Hin d' Hs. apply H. eapply subnode_item; eauto. Qed.

Lemma unique_keys_drop l :
  unique_keys (JList l) -> unique_keys (JList (drop_null_types l)).
Proof.
  intros H d Hs. inversion Hs as [|l0 x Hin Hx|]; subst.
  apply filter_In in Hin. eapply unique_keys_item; eauto. tauto.
Qed.

(** The values the walk finds in a node after the two rewrites. *)
Lemma rewritten_values_unique_keys root_of d d1 k v :
  handle_anyOf root_of d = Ok d1 ->
  unique_keys (JDict d) ->
  In (k, v) (convert_examples d1) -> unique_keys v.
Proof.
  intros H1 Hu Hin.
  assert (U1 : forall k v, In (k, v) d1 -> unique_keys v).
  { intros k1 v1 Hin1. apply handle_anyOf_cases in H1.
    destruct H1 as [(items & E & [-> | ->]) | [_ ->]].
    - apply In_set in Hin1. destruct Hin1 as [[= -> ->] | Hin1].
      + apply unique_keys_drop. eapply unique_keys_value; eauto.
        eapply get_In; eauto.
      + eapply unique_keys_value; eauto.
    - apply In_set in Hin1. destruct Hin1 as [[= -> ->] | Hin1].
      { intros d' Hs. inversion Hs. }
      apply In_set in Hin1. destruct Hin1 as [[= -> ->] | Hin1].
      + apply unique_keys_drop. eapply unique_keys_value; eauto.
        eapply get_In; eauto.
      + eapply unique_keys_value; eauto.
    - eapply unique_keys_value; eauto. }
  unfold convert_examples in Hin.
  destruct (get "examples" d1) as [[| | | |[|first rest]|]|] eqn:E;
    try (apply In_pop in Hin); eauto.
  apply In_set in Hin. destruct Hin as [[= -> ->] | Hin].
  - eapply unique_keys_item; [eapply U1, get_In; eauto | now left].
  - apply In_pop in Hin. eauto.
Qed.

Lemma rewritten_keys_NoDup root_of d d1 :
  handle_anyOf root_of d = Ok d1 ->
  NoDup (keys d) -> NoDup (keys (convert_examples d1)).
Proof.
  intros H1 Hd.
  assert (N1 : NoDup (keys d1)).
  { apply handle_anyOf_cases in H1.
    destruct H1 as [(items & E & [-> | ->]) | [_ ->]];
      repeat apply NoDup_keys_set; auto. }
  unfold convert_examples.
  destruct (get "examples" d1) as [[| | | |[|first rest]|]|];
    try apply NoDup_keys_set; try apply NoDup_keys_pop; auto.
Qed.

(** The converter returns a tree that [json.dump] can write: it makes no
    Object with two entries under one key. *)
Lemma inner_unique_keys fuel :
  forall root_of j out,
    inner fuel root_of j = Ok out -> unique_keys j -> unique_keys out.
Proof.
  induction fuel as [|n IH]; intros root_of j out H Hu; [discriminate|].
  destruct j; try (simpl in H; injection H as <-; exact Hu).
  - apply inner_list_inv in H. destruct H as (m & l' & [= <-] & -> & HF).
    intros d Hs. inversion Hs as [|l0 x Hin Hx|]; subst.
    destruct (Forall2_In_r _ _ _ _ HF Hin) as (x0 & Hin0 & r & Hr).
    eapply IH; eauto. eapply unique_keys_item; eauto.
  - apply inner_dict_inv in H.
    destruct H as (m & d1 & d' & [= <-] & H1 & -> & HF).
    intros d2 Hs. inversion Hs as [| |d3 k v Hin Hv]; subst.
    + rewrite (keys_same_keys _ _ _ HF).
      eapply rewritten_keys_NoDup; eauto. apply Hu, subnode_here.
    + destruct (In_same_keys_inv _ _ _ _ _ HF Hin) as (v0 & Hin0 & r & Hr).
      eapply IH; eauto. eapply rewritten_values_unique_keys; eauto.
Qed.

(** X8.  Lines 18, 25, 27, 31 and 33: the converter keeps the keys of every
    Object pairwise different; [d[k] = v] on a key that is there replaces its
    value, and [pop] takes the key out. *)
Lemma convert_unique_keys d0 out :
  unique_keys (JDict d0) ->
  convert_3_dot_1_to_3_dot_0 (JDict d0) = Ok out ->
  unique_keys out.
Proof.
  unfold convert_3_dot_1_to_3_dot_0. intros Hu H.
  eapply inner_unique_keys; eauto.
  intros d Hs. inversion Hs as [| |d1 k v Hin Hv]; subst.
  - apply NoDup_keys_set. apply Hu, subnode_here.
  - apply In_set in Hin. destruct Hin as [[= -> ->] | Hin].
    + inversion Hv.
    + apply Hu. eapply subnode_value; eauto.
Qed.

End UniqueKeys.

(** ** Converting a converted tree *)

Section Twice.
Import Dict DictFacts.

Lemma set_get_same k v d : get k d = Some v -> set k v d = d.
Proof.
  induction d as [|[k' v'] d IH]; simpl; [discriminate|].
  destruct (String.eqb k k'); [now intros [= ->] | intros; f_equal; auto].
Qed.

Lemma for_values_id visit todo :
  forall root_of done,
    (forall d, keys d = keys (done ++ todo) ->
               get_anyOf_or_empty (root_of d) = Ok (JList [])) ->
    (forall k v r, In (k, v) todo -> no_root_anyOf r -> visit r v = Ok v) ->
    for_values visit root_of done todo = Ok (done ++ todo).
Proof.
  induction todo as [|[k v] rest IH]; simpl; intros root_of done Hr Hv.
  - now rewrite app_nil_r.
  - rewrite (Hv k v); auto.
    + simpl. rewrite IH; eauto.
      * now rewrite <- app_assoc.
      * intros d Hd. apply Hr. rewrite Hd. unfold keys.
        now rewrite <- app_assoc, !map_app.
    + intros x. apply Hr. unfold keys. now rewrite !map_app.
Qed.

Lemma for_items_id visit todo :
  forall root_of done,
    (forall l, get_anyOf_or_empty (root_of l) = Ok (JList [])) ->
    (forall v r, In v todo -> no_root_anyOf r -> visit r v = Ok v) ->
    for_items visit root_of done todo = Ok (done ++ todo).
Proof.
  induction todo as [|v rest IH]; simpl; intros root_of done Hr Hv.
  - now rewrite app_nil_r.
  - rewrite Hv; auto.
    + simpl. rewrite IH; auto. now rewrite <- app_assoc.
    + intros x. apply Hr.
Qed.

Lemma handle_anyOf_id root_of d :
  (forall items, get "anyOf" d = Some (JList items) ->
                 get_anyOf_or_empty (root_of (JDict d)) = Ok (JList [])) ->
  no_null_branch d -> handle_anyOf root_of d = Ok d.
Proof.
  intros Hr Hn. unfold handle_anyOf.
  destruct (get "anyOf" d) as [[| | | |items|]|] eqn:E; auto.
  rewrite drop_null_types_id by (intros; eapply Hn; eauto).
  rewrite (set_get_same _ _ _ E), (Hr items eq_refl). reflexivity.
Qed.

Lemma convert_examples_id d : no_examples d -> convert_examples d = d.
Proof. unfold no_examples, convert_examples. now intros ->. Qed.

Lemma converted_value d k v : converted (JDict d) -> In (k, v) d -> converted v.
Proof. intros H Hin d' Hs. apply H. eapply subnode_value; eauto. Qed.

Lemma converted_item l x : converted (JList l) -> In x l -> converted x.
Proof. intros H Hin d' Hs. apply H. eapply subnode_item; eauto. Qed.

(** Below a root without [anyOf], the walk leaves a converted tree as it
    is. *)
Lemma inner_converted fuel :
  forall root_of j,
    depth j < fuel -> no_root_anyOf root_of -> converted j ->
    inner fuel root_of j = Ok j.
Proof.
  induction fuel as [|n IH]; intros root_of j Hd Hr Hc; [lia|].
  destruct j; try reflexivity; cbn [inner].
  - rewrite for_items_id; [reflexivity | intros l0; apply Hr |].
    intros v r Hin Hx. apply IH; auto.
    + pose proof (depth_item _ _ Hin). lia.
    + eapply converted_item; eauto.
  - destruct (Hc d (subnode_here _)) as [He Hn].
    rewrite handle_anyOf_id by auto. cbn [bind].
    rewrite convert_examples_id by auto.
    rewrite for_values_id; [reflexivity | intros d0 _; apply Hr |].
    intros k v r Hin Hx. apply IH; auto.
    + pose proof (depth_value _ _ _ Hin). lia.
    + eapply converted_value; eauto.
Qed.

Lemma inner_root_converted fuel d :
  depth (JDict d) < fuel -> get "anyOf" d = None -> converted (JDict d) ->
  inner fuel (fun x => x) (JDict d) = Ok (JDict d).
Proof.
  intros Hd Ha Hc. destruct fuel as [|n]; [lia|]. cbn [inner].
  destruct (Hc d (subnode_here _)) as [He Hn].
  rewrite handle_anyOf_id by (auto; intros items; congruence). cbn [bind].
  rewrite convert_examples_id by auto.
  rewrite for_values_id; [reflexivity | |].
  - intros d0 Hk. simpl. now rewrite (get_same_key_list _ _ _ (eq_sym Hk) Ha).
  - intros k v r Hin Hx. apply inner_converted; auto.
    + pose proof (depth_value _ _ _ Hin). lia.
    + eapply converted_value; eauto.
Qed.

(** On a document that is already converted, and whose root has no
    [anyOf], the walk of the model changes nothing. *)
Lemma convert_converted d :
  get "anyOf" d = None ->
  get "openapi" d = Some (JString "3.0.2") ->
  converted (JDict d) ->
  convert_3_dot_1_to_3_dot_0 (JDict d) = Ok (JDict d).
Proof.
  intros Ha Ho Hc. unfold convert_3_dot_1_to_3_dot_0.
  rewrite (set_get_same _ _ _ Ho). apply inner_root_converted; auto.
Qed.

(** What the converter returned for a root without [anyOf] is converted,
    has version 3.0.2 and no [anyOf] at its root. *)
Lemma convert_result_plain d0 out :
  get "anyOf" d0 = None ->
  convert_3_dot_1_to_3_dot_0 (JDict d0) = Ok out ->
  exists d,
    out = JDict d /\
    get "anyOf" d = None /\
    get "openapi" d = Some (JString "3.0.2") /\
    converted out.
Proof.
  unfold convert_3_dot_1_to_3_dot_0. intros Ha H.
  assert (Hc : converted out).
  { intros d Hs. split.
    - eapply (inner_subnodes no_examples); eauto. apply inner_dict_no_examples.
    - eapply (inner_subnodes no_null_branch); eauto.
      apply inner_dict_no_null_branch. }
  destruct (inner_dict_get _ _ _ _ "openapi" H eq_refl) as (d & -> & G).
  rewrite get_set_same in G. destruct G as (v & Ho & Hv).
  rewrite (converts_to_scalar _ _ Hv eq_refl) in Ho.
  exists d. repeat split; auto; try apply Hc; auto.
  apply inner_dict_inv in H.
  destruct H as (n & d1 & d' & _ & H1 & [= <-] & HF).
  eapply get_same_keys_None; eauto.
  rewrite convert_examples_get by discriminate.
  rewrite (handle_anyOf_get_anyOf _ _ _ H1).
  now rewrite get_set_other, Ha by discriminate.
Qed.

(** X10.  On the documents whose root has no [anyOf] the converter is
    idempotent: what it returned, it returns again as it is. *)
Lemma convert_twice_without_root_anyOf d0 out :
  get "anyOf" d0 = None ->
  convert_3_dot_1_to_3_dot_0 (JDict d0) = Ok out ->
  convert_3_dot_1_to_3_dot_0 out = Ok out.
Proof.
  intros Ha H.
  destruct (convert_result_plain d0 out Ha H) as (d & -> & Ha' & Ho & Hc).
  now apply convert_converted.
Qed.

End Twice.

(** * The claims of the specification *)

(** ** Evaluations *)

Example convert_pet_doc : convert_3_dot_1_to_3_dot_0 pet_doc = Ok pet_returned.
Proof. reflexivity. Qed.

Example convert_unsized_doc :
  convert_3_dot_1_to_3_dot_0 unsized_doc = Raise TypeError.
Proof. reflexivity. Qed.

(** ** Rule A: the nullable flag *)

(** C1.  The claim: a node whose [anyOf] loses entries to the filter gets
    [nullable = true].  The code compares the filtered length with the
    length of the root's [anyOf], not with the node's own length before the
    filter: here the list of [schema] goes from two entries to one, the root
    has no [anyOf], and [schema] is returned without [nullable]. *)
Theorem nullable_not_set_when_anyOf_shrinks :
  Dict.get "anyOf" optional_string = Some (JList [ty "string"; ty "null"]) /\
  convert_3_dot_1_to_3_dot_0 optional_string_doc =
    Ok (JDict [("openapi", JString "3.0.2");
               ("schema", JDict [("anyOf", JList [ty "string"])])]).
Proof. split; reflexivity. Qed.

(** C2.  The end-to-end example of the specification: the converter returns
    the expected document without the [nullable] entry of [Pet]. *)
Theorem pet_doc_returned_without_nullable :
  convert_3_dot_1_to_3_dot_0 pet_doc = Ok pet_returned /\
  pet_returned <> pet_expected.
Proof. split; [reflexivity | discriminate]. Qed.

(** ** The invariants of a converted tree *)

(** C3.  In the tree [convert] returns for a document whose root is an
    Object, no Object has, in an [anyOf] that is a Sequence, an entry that is
    an Object with [type] equal to "null". *)
Theorem no_null_branch_left (d0 : Dict.t) (out : Json) :
  convert_3_dot_1_to_3_dot_0 (JDict d0) = Ok out ->
  forall d items item,
    subnode (JDict d) out ->
    Dict.get "anyOf" d = Some (JList items) ->
    In item items ->
    is_null_type item = false.
Proof.
  unfold convert_3_dot_1_to_3_dot_0. intros H d items item Hsub.
  revert items item. change (no_null_branch d).
  eapply inner_subnodes; eauto. apply inner_dict_no_null_branch.
Qed.

Lemma no_null_branch_left_witness :
  convert_3_dot_1_to_3_dot_0 (JDict pet_root) = Ok pet_returned /\
  subnode (JDict pet_converted) pet_returned /\
  is_null_type (ty "object") = false.
Proof.
  assert (Hsub : subnode (JDict pet_converted) pet_returned).
  { eapply subnode_value; [right; left; reflexivity|].
    eapply subnode_value; [left; reflexivity|].
    eapply subnode_value; [left; reflexivity|].
    apply subnode_here. }
  split; [reflexivity|]. split; [exact Hsub|].
  apply (no_null_branch_left pet_root pet_returned eq_refl
           pet_converted [ty "object"] (ty "object") Hsub eq_refl).
  left; reflexivity.
Defined.

(** C4.  In the tree [convert] returns for a document whose root is an
    Object, no Object has a field [examples], whatever the value of that
    field was. *)
Theorem no_examples_left (d0 : Dict.t) (out : Json) :
  convert_3_dot_1_to_3_dot_0 (JDict d0) = Ok out ->
  forall d, subnode (JDict d) out -> Dict.get "examples" d = None.
Proof.
  unfold convert_3_dot_1_to_3_dot_0. intros H d Hsub.
  change (no_examples d).
  eapply inner_subnodes; eauto. apply inner_dict_no_examples.
Qed.

Lemma no_examples_left_witness :
  convert_3_dot_1_to_3_dot_0 (JDict pet_root) = Ok pet_returned /\
  subnode (JDict pet_converted) pet_returned /\
  Dict.get "examples" pet <> None /\
  Dict.get "examples" pet_converted = None.
Proof.
  assert (Hsub : subnode (JDict pet_converted) pet_returned).
  { eapply subnode_value; [right; left; reflexivity|].
    eapply subnode_value; [left; reflexivity|].
    eapply subnode_value; [left; reflexivity|].
    apply subnode_here. }
  split; [reflexivity|]. split; [exact Hsub|]. split; [discriminate|].
  exact (no_examples_left pet_root pet_returned eq_refl pet_converted Hsub).
Defined.

(** C7.  The root of the tree [convert] returns for a document whose root is
    an Object has the field [openapi], equal to the string "3.0.2", whether
    the input had that field or not. *)
Theorem openapi_is_3_0_2 (d0 : Dict.t) (out : Json) :
  convert_3_dot_1_to_3_dot_0 (JDict d0) = Ok out ->
  exists d, out = JDict d /\ Dict.get "openapi" d = Some (JString "3.0.2").
Proof.
  unfold convert_3_dot_1_to_3_dot_0. intros H.
  destruct (inner_dict_get _ _ _ _ "openapi" H eq_refl) as (d & -> & G).
  exists d. split; [reflexivity|].
  rewrite DictFacts.get_set_same in G. destruct G as (v & -> & Hv).
  now rewrite (converts_to_scalar _ _ Hv).
Qed.

Lemma openapi_is_3_0_2_witness :
  convert_3_dot_1_to_3_dot_0 (JDict [("info", JString "x")]) =
    Ok (JDict [("info", JString "x"); ("openapi", JString "3.0.2")]) /\
  exists d,
    JDict [("info", JString "x"); ("openapi", JString "3.0.2")] = JDict d /\
    Dict.get "openapi" d = Some (JString "3.0.2").
Proof.
  split; [reflexivity|].
  exact (openapi_is_3_0_2 [("info", JString "x")] _ eq_refl).
Defined.

(** ** Rule B: examples *)

(** C5, as the code has it.  After the visit of an Object with a field
    [examples], the field is gone; when its value was a non-empty Sequence,
    [example] holds the first element as the walk leaves it, which is the
    first element itself when that is a scalar; otherwise [example] is what
    the node had under that name before, visited, or is absent as before. *)
Theorem example_is_first_example_converted
    (fuel : nat) (root_of : Json -> Json) (d : Dict.t) (out examples : Json) :
  inner fuel root_of (JDict d) = Ok out ->
  Dict.get "examples" d = Some examples ->
  exists d',
    out = JDict d' /\
    Dict.get "examples" d' = None /\
    match examples with
    | JList (first :: _) =>
        exists first',
          Dict.get "example" d' = Some first' /\
          converts_to first first' /\
          (is_scalar first = true -> first' = first)
    | _ => field_kept "example" d d'
    end.
Proof.
  unfold field_kept.
  intros H E. pose proof H as H0. apply inner_dict_inv in H.
  destruct H as (n & d1 & d' & -> & H1 & -> & HF).
  exists d'. split; [reflexivity|]. split.
  { eapply inner_dict_no_examples; eauto. }
  pose proof (DictFacts.get_same_keys _ _ _ "example" HF) as G.
  rewrite convert_examples_get_example in G.
  rewrite !(handle_anyOf_get _ _ _ _ H1) in G by discriminate.
  rewrite E in G.
  assert (K : forall o,
             match o with
             | Some v => exists v', Dict.get "example" d' = Some v' /\ visits n v v'
             | None => Dict.get "example" d' = None
             end ->
             match o with
             | Some v =>
                 exists v', Dict.get "example" d' = Some v' /\ converts_to v v'
             | None => Dict.get "example" d' = None
             end).
  { intros [v|]; auto. intros (v' & ? & ?). exists v'. split; auto.
    eapply visits_converts; eauto. }
  destruct examples as [| | | |[|first rest]|]; try (apply K; exact G).
  destruct G as (first' & G1 & G2). apply visits_converts in G2.
  exists first'. repeat split; auto.
  intros Hs. eapply converts_to_scalar; eauto.
Qed.

Lemma example_is_first_example_converted_witness :
  inner 3 (fun x => x) (JDict [("examples", JList [JString "a"; JString "b"])])
    = Ok (JDict [("example", JString "a")]) /\
  exists d',
    JDict [("example", JString "a")] = JDict d' /\
    Dict.get "examples" d' = None /\
    Dict.get "example" d' = Some (JString "a").
Proof.
  split; [reflexivity|].
  destruct (example_is_first_example_converted 3 (fun x => x)
              [("examples", JList [JString "a"; JString "b"])]
              (JDict [("example", JString "a")])
              (JList [JString "a"; JString "b"]) eq_refl eq_refl)
    as (d' & E & Hx & first' & Hg & _ & Hs).
  exists d'. split; [exact E|]. split; [exact Hx|].
  rewrite Hg. f_equal. apply Hs. reflexivity.
Defined.

(** C5, as the claim has it, fails: the first element of [examples] is
    [{"examples": [1]}], and [example] holds [{"example": 1}]. *)
Lemma example_is_not_first_example :
  Dict.get "examples" nested_examples =
    Some (JList [JDict [("examples", JList [num 1])]; num 2]) /\
  convert_3_dot_1_to_3_dot_0 nested_examples_doc =
    Ok (JDict [("openapi", JString "3.0.2");
               ("schema", JDict [("example", JDict [("example", num 1)])])]) /\
  JDict [("example", num 1)] <> JDict [("examples", JList [num 1])].
Proof. split; [reflexivity | split; [reflexivity | discriminate]]. Qed.

(** ** Rule A: the entries of [anyOf] *)

(** C6, as the code has it.  After the visit of a node whose [anyOf] is a
    Sequence without null-typed entry, [anyOf] holds all the entries it had,
    in their order, each as the walk leaves it.  (Whether the node gets
    [nullable] is the matter of C1.) *)
Theorem anyOf_without_null_type_keeps_its_entries
    (fuel : nat) (root_of : Json -> Json) (d : Dict.t) (out : Json)
    (items : list Json) :
  inner fuel root_of (JDict d) = Ok out ->
  Dict.get "anyOf" d = Some (JList items) ->
  (forall item, In item items -> is_null_type item = false) ->
  exists d' items',
    out = JDict d' /\
    Dict.get "anyOf" d' = Some (JList items') /\
    Forall2 converts_to items items'.
Proof.
  intros H E Hnn. apply inner_dict_inv in H.
  destruct H as (n & d1 & d' & -> & H1 & -> & HF).
  pose proof (handle_anyOf_get_anyOf _ _ _ H1) as E1.
  rewrite E, (drop_null_types_id _ Hnn) in E1.
  pose proof (field_kept_same_keys _ "anyOf" _ _ HF) as G.
  unfold field_kept in G.
  rewrite convert_examples_get, E1 in G by discriminate.
  destruct G as (v' & G1 & G2).
  apply converts_to_list in G2. destruct G2 as (items' & -> & G2).
  exists d', items'. repeat split; auto.
Qed.

Lemma anyOf_without_null_type_keeps_its_entries_witness :
  inner 4 (fun x => JDict [("openapi", JString "3.0.2"); ("schema", x)])
    (JDict string_or_integer) =
    Ok (JDict [("anyOf", JList [JDict [("type", JString "string");
                                       ("example", JString "a")];
                                ty "integer"])]) /\
  exists d' items',
    Dict.get "anyOf" d' = Some (JList items') /\
    Forall2 converts_to [string_with_examples; ty "integer"] items'.
Proof.
  split; [reflexivity|].
  destruct (anyOf_without_null_type_keeps_its_entries 4
              (fun x => JDict [("openapi", JString "3.0.2"); ("schema", x)])
              string_or_integer _ [string_with_examples; ty "integer"]
              eq_refl eq_refl) as (d' & items' & _ & Ha & Hi).
  - intros item [<- | [<- | []]]; reflexivity.
  - exists d', items'. split; [exact Ha | exact Hi].
Defined.

(** C6, as the claim has it, fails: the [anyOf] of [schema] has no
    null-typed entry and is returned with its first entry rewritten. *)
Lemma anyOf_without_null_type_changes :
  Dict.get "anyOf" string_or_integer =
    Some (JList [string_with_examples; ty "integer"]) /\
  is_null_type string_with_examples = false /\
  is_null_type (ty "integer") = false /\
  convert_3_dot_1_to_3_dot_0 string_or_integer_doc =
    Ok (JDict [("openapi", JString "3.0.2");
               ("schema",
                JDict [("anyOf",
                        JList [JDict [("type", JString "string");
                                      ("example", JString "a")];
                               ty "integer"])])]) /\
  JList [JDict [("type", JString "string"); ("example", JString "a")];
         ty "integer"]
  <> JList [string_with_examples; ty "integer"].
Proof. repeat (split; [reflexivity|]). discriminate. Qed.

(** The other half of C6: a node without null-typed entry gets [nullable]
    when the [anyOf] of the root is longer than its own. *)
Example convert_clean_doc :
  convert_3_dot_1_to_3_dot_0 clean_doc = Ok clean_returned.
Proof. reflexivity. Qed.

(** C10.  When the [anyOf] of a node is not a Sequence, lines 24-27 leave the
    node as it is: after the visit [anyOf] holds the value it had, visited in
    its turn (so the same value unless it is an Object), and [nullable] is as
    it was. *)
Theorem anyOf_not_a_list_is_skipped
    (fuel : nat) (root_of : Json -> Json) (d : Dict.t) (out v : Json) :
  inner fuel root_of (JDict d) = Ok out ->
  Dict.get "anyOf" d = Some v ->
  is_list v = false ->
  handle_anyOf root_of d = Ok d /\
  exists d' v',
    out = JDict d' /\
    Dict.get "anyOf" d' = Some v' /\
    converts_to v v' /\
    (is_dict v = false -> v' = v) /\
    field_kept "nullable" d d'.
Proof.
  intros H E Hl.
  assert (H1 : handle_anyOf root_of d = Ok d).
  { apply handle_anyOf_not_list. intros items E'. rewrite E in E'.
    injection E' as ->. discriminate. }
  split; [exact H1|].
  apply inner_dict_inv in H.
  destruct H as (n & d1 & d' & -> & H1' & -> & HF).
  rewrite H1 in H1'. injection H1' as <-.
  pose proof (field_kept_same_keys _ "anyOf" _ _ HF) as G.
  unfold field_kept in G. rewrite convert_examples_get, E in G by discriminate.
  destruct G as (v' & G1 & G2).
  exists d', v'. repeat split; auto.
  - intros Hd. eapply converts_to_scalar; eauto.
    unfold is_scalar. now rewrite Hl, Hd.
  - eapply field_kept_eq; [|eapply field_kept_same_keys; eauto].
    apply convert_examples_get; discriminate.
Qed.

Lemma anyOf_not_a_list_is_skipped_witness :
  inner 3 (fun x => x) (JDict [("anyOf", ty "null")]) =
    Ok (JDict [("anyOf", ty "null")]) /\
  handle_anyOf (fun x => x) [("anyOf", ty "null")] = Ok [("anyOf", ty "null")] /\
  exists d' v',
    JDict [("anyOf", ty "null")] = JDict d' /\
    Dict.get "anyOf" d' = Some v' /\
    converts_to (ty "null") v' /\
    field_kept "nullable" [("anyOf", ty "null")] d'.
Proof.
  split; [reflexivity|].
  destruct (anyOf_not_a_list_is_skipped 3 (fun x => x) [("anyOf", ty "null")]
              (JDict [("anyOf", ty "null")]) (ty "null")
              eq_refl eq_refl eq_refl)
    as (Hskip & d' & v' & E & Ha & Hc & _ & Hn).
  split; [exact Hskip|]. exists d', v'. repeat split; assumption.
Defined.

(** ** The frame *)

(** C9.  A visit of an Object leaves every field other than [anyOf],
    [nullable], [examples] and [example] where it was, holding the value it
    had, visited in its turn, and gives the node no other field; a visit of a
    Sequence visits its elements; a visit of a String, Number, Boolean or
    Null leaves it as it is.  For the root of a document the same holds of
    [convert], bar the field [openapi]. *)
Theorem other_fields_are_kept :
  (forall fuel root_of j out,
      inner fuel root_of j = Ok out ->
      match j with
      | JDict d =>
          exists d',
            out = JDict d' /\
            forall k, rewritten_key k = false -> field_kept k d d'
      | JList l => exists l', out = JList l' /\ Forall2 converts_to l l'
      | _ => out = j
      end) /\
  (forall d0 out,
      convert_3_dot_1_to_3_dot_0 (JDict d0) = Ok out ->
      exists d',
        out = JDict d' /\
        forall k, rewritten_key k = false -> k <> "openapi" ->
                  field_kept k d0 d').
Proof.
  assert (node : forall fuel root_of d out,
             inner fuel root_of (JDict d) = Ok out ->
             exists d',
               out = JDict d' /\
               forall k, rewritten_key k = false -> field_kept k d d').
  { intros fuel root_of d out H.
    destruct (inner_dict_get _ _ _ _ "type" H eq_refl) as (d' & -> & _).
    exists d'. split; [reflexivity|]. intros k Hk.
    destruct (inner_dict_get _ _ _ _ k H Hk) as (d2 & [= <-] & G). exact G. }
  split.
  - intros fuel root_of j out H. destruct j;
      try (eapply inner_scalar; [|exact H]; reflexivity).
    + apply converts_to_list. now exists fuel, root_of.
    + eapply node; eassumption.
  - unfold convert_3_dot_1_to_3_dot_0. intros d0 out H.
    destruct (node _ _ _ _ H) as (d' & -> & G).
    exists d'. split; [reflexivity|]. intros k Hk Hne.
    eapply field_kept_eq; [|apply G; exact Hk].
    now apply DictFacts.get_set_other.
Qed.

Lemma other_fields_are_kept_witness :
  convert_3_dot_1_to_3_dot_0 (JDict pet_root) = Ok pet_returned /\
  (exists d', pet_returned = JDict d' /\ field_kept "components" pet_root d') /\
  inner 4 (fun x => x) (JDict pet) = Ok (JDict pet_converted) /\
  (exists d', JDict pet_converted = JDict d' /\ field_kept "title" pet d').
Proof.
  split; [reflexivity|]. split.
  - destruct (proj2 other_fields_are_kept pet_root pet_returned eq_refl)
      as (d' & E & G).
    exists d'. split; [exact E|]. apply G; [reflexivity | discriminate].
  - split; [reflexivity|].
    destruct (proj1 other_fields_are_kept 4 (fun x => x) (JDict pet)
                (JDict pet_converted) eq_refl) as (d' & E & G).
    exists d'. split; [exact E|]. apply G. reflexivity.
Defined.

(** ** Converting twice *)

(** C8.  The converter is not idempotent, and does not leave a clean
    document as it is.  In [drift_doc] the root holds a dict under [anyOf];
    that dict has two keys while [a] is visited in the first pass and three
    in the second, so that [a] gets [nullable] in the second pass only.  In
    [clean_doc] the list of [x] is shorter than the list of the root, and [x]
    gets [nullable] although nothing was removed. *)
Theorem convert_twice_differs :
  (convert_3_dot_1_to_3_dot_0 drift_doc = Ok drift_once /\
   convert_3_dot_1_to_3_dot_0 drift_once = Ok drift_twice /\
   drift_twice <> drift_once) /\
  (convert_3_dot_1_to_3_dot_0 clean_doc = Ok clean_returned /\
   clean_returned <> clean_doc).
Proof.
  split; [split; [reflexivity | split; [reflexivity | discriminate]]|].
  split; [exact convert_clean_doc | discriminate].
Qed.

(** * Further properties of the converter *)

(** ** What rule A does to a list *)

(** X1.  Lines 25 and 36-37: after the visit of a node whose [anyOf] is a
    Sequence, [anyOf] holds the entries that are not null-typed, all of them
    and in their order, each as the walk leaves it. *)
Theorem anyOf_holds_the_entries_not_null_typed
    (fuel : nat) (root_of : Json -> Json) (d : Dict.t) (out : Json)
    (items : list Json) :
  inner fuel root_of (JDict d) = Ok out ->
  Dict.get "anyOf" d = Some (JList items) ->
  exists d' items',
    out = JDict d' /\
    Dict.get "anyOf" d' = Some (JList items') /\
    Forall2 converts_to (filter (fun item => negb (is_null_type item)) items)
      items'.
Proof.
  intros H E. apply inner_dict_inv in H.
  destruct H as (n & d1 & d' & -> & H1 & -> & HF).
  pose proof (handle_anyOf_get_anyOf _ _ _ H1) as E1. rewrite E in E1.
  pose proof (field_kept_same_keys _ "anyOf" _ _ HF) as G.
  unfold field_kept in G.
  rewrite convert_examples_get, E1 in G by discriminate.
  destruct G as (v' & G1 & G2).
  apply converts_to_list in G2. destruct G2 as (items' & -> & G2).
  exists d', items'. repeat split; auto.
Qed.

Lemma anyOf_holds_the_entries_not_null_typed_witness :
  inner 4 (fun x => x) (JDict pet) = Ok (JDict pet_converted) /\
  exists d' items',
    JDict pet_converted = JDict d' /\
    Dict.get "anyOf" d' = Some (JList items') /\
    Forall2 converts_to [ty "object"] items'.
Proof.
  split; [reflexivity|].
  exact (anyOf_holds_the_entries_not_null_typed 4 (fun x => x) pet
           (JDict pet_converted) [ty "object"; ty "null"] eq_refl eq_refl).
Defined.

(** X2.  Line 25 assigns the filtered list even when nothing is left of it:
    a node whose [anyOf] holds null-typed entries only keeps the field, with
    the empty list. *)
Theorem anyOf_of_null_types_becomes_empty
    (fuel : nat) (root_of : Json -> Json) (d : Dict.t) (out : Json)
    (items : list Json) :
  inner fuel root_of (JDict d) = Ok out ->
  Dict.get "anyOf" d = Some (JList items) ->
  (forall item, In item items -> is_null_type item = true) ->
  exists d', out = JDict d' /\ Dict.get "anyOf" d' = Some (JList []).
Proof.
  intros H E Hall. apply inner_dict_inv in H.
  destruct H as (n & d1 & d' & -> & H1 & -> & HF).
  pose proof (handle_anyOf_get_anyOf _ _ _ H1) as E1. rewrite E in E1.
  assert (Hd : drop_null_types items = []).
  { unfold drop_null_types. clear E E1 H1.
    induction items as [|x xs IH]; simpl; auto.
    rewrite (Hall x) by (now left). simpl. apply IH.
    intros; apply Hall; now right. }
  rewrite Hd in E1.
  pose proof (field_kept_same_keys _ "anyOf" _ _ HF) as G.
  unfold field_kept in G.
  rewrite convert_examples_get, E1 in G by discriminate.
  destruct G as (v' & G1 & G2).
  apply converts_to_list in G2. destruct G2 as (items' & -> & G2).
  inversion G2; subst. eauto.
Qed.

Lemma anyOf_of_null_types_becomes_empty_witness :
  inner 4 (fun x => x) (JDict [("anyOf", JList [ty "null"])]) =
    Ok (JDict [("anyOf", JList [])]) /\
  exists d',
    JDict [("anyOf", JList [])] = JDict d' /\
    Dict.get "anyOf" d' = Some (JList []).
Proof.
  split; [reflexivity|].
  apply (anyOf_of_null_types_becomes_empty 4 (fun x => x)
           [("anyOf", JList [ty "null"])] _ [ty "null"] eq_refl eq_refl).
  intros item [<- | []]. reflexivity.
Defined.

(** X3.  Line 26 at the root: the root is compared with itself, after line
    25 has rewritten it, so that the converter never sets [nullable] on the
    root, whatever its [anyOf] loses. *)
Theorem root_nullable_is_kept (d0 : Dict.t) (out : Json) :
  convert_3_dot_1_to_3_dot_0 (JDict d0) = Ok out ->
  exists d', out = JDict d' /\ field_kept "nullable" d0 d'.
Proof.
  unfold convert_3_dot_1_to_3_dot_0. intros H. apply inner_dict_inv in H.
  destruct H as (n & d1 & d' & _ & H1 & -> & HF).
  exists d'. split; [reflexivity|].
  eapply field_kept_eq; [|eapply field_kept_same_keys; eauto].
  rewrite convert_examples_get by discriminate.
  transitivity (Dict.get "nullable" (Dict.set "openapi" (JString "3.0.2") d0));
    [|now rewrite DictFacts.get_set_other by discriminate].
  unfold handle_anyOf in H1.
  destruct (Dict.get "anyOf" _) as [[| | | |items|]|]; try congruence.
  simpl in H1. rewrite DictFacts.get_set_same in H1. simpl in H1.
  rewrite Nat.ltb_irrefl in H1. injection H1 as <-.
  now rewrite DictFacts.get_set_other by discriminate.
Qed.

Lemma root_nullable_is_kept_witness :
  convert_3_dot_1_to_3_dot_0 (JDict pet) =
    Ok (JDict [("anyOf", JList [ty "object"]);
               ("openapi", JString "3.0.2");
               ("example", JDict [("id", num 1)])]) /\
  exists d',
    JDict [("anyOf", JList [ty "object"]);
           ("openapi", JString "3.0.2");
           ("example", JDict [("id", num 1)])] = JDict d' /\
    Dict.get "nullable" d' = None.
Proof.
  split; [reflexivity|].
  exact (root_nullable_is_kept pet _ eq_refl).
Defined.

(** ** The keys of a node *)

Section Keys.
Import Dict DictFacts.

Lemma keys_pop k d :
  keys (pop k d) = filter (fun k' => negb (String.eqb k k')) (keys d).
Proof.
  unfold keys, pop. induction d as [|[k' v'] d IH]; simpl; auto.
  destruct (String.eqb k k'); simpl; now rewrite IH.
Qed.

Lemma filter_keys_absent k ks :
  ~ In k ks -> filter (fun k' => negb (String.eqb k k')) ks = ks.
Proof.
  induction ks as [|k' ks IH]; simpl; auto. intros H.
  destruct (String.eqb k k') eqn:E.
  - apply String.eqb_eq in E. subst k'. tauto.
  - simpl. f_equal. apply IH. tauto.
Qed.

(** The keys after lines 24-27. *)
Lemma handle_anyOf_keys root_of d d1 :
  handle_anyOf root_of d = Ok d1 ->
  keys d1 = keys d \/
  (get "nullable" d = None /\ keys d1 = keys d ++ ["nullable"]).
Proof.
  intros H. apply handle_anyOf_cases in H.
  assert (Ka : forall items x,
             get "anyOf" d = Some (JList items) ->
             keys (set "anyOf" x d) = keys d).
  { intros items x E. destruct (keys_set "anyOf" x d) as [K | [K _]]; auto.
    congruence. }
  destruct H as [(items & E & [-> | ->]) | [_ ->]]; eauto.
  destruct (keys_set "nullable" (JBool true)
              (set "anyOf" (JList (drop_null_types items)) d)) as [K | [K1 K2]].
  - left. rewrite K. eauto.
  - right. rewrite get_set_other in K1 by discriminate.
    split; auto. rewrite K2. f_equal. eauto.
Qed.

(** The keys after lines 30-33. *)
Lemma convert_examples_keys d :
  let kept := filter (fun k => negb (String.eqb "examples" k)) (keys d) in
  keys (convert_examples d) = kept \/
  (get "example" d = None /\ keys (convert_examples d) = kept ++ ["example"]).
Proof.
  unfold convert_examples.
  destruct (get "examples" d) as [examples|] eqn:E.
  - destruct examples as [| | | |[|first rest]|]; try (left; apply keys_pop).
    destruct (keys_set "example" first (pop "examples" d)) as [K | [K1 K2]].
    + left. rewrite K. apply keys_pop.
    + right. rewrite get_pop_other in K1 by discriminate.
      split; auto. rewrite K2. f_equal. apply keys_pop.
  - left. symmetry. apply filter_keys_absent. now apply get_None_keys.
Qed.

End Keys.

(** X4.  Lines 25-33 and the loop of line 36: the visit of a node keeps its
    fields in their order; it takes [examples] out and puts at the end, in
    this order, [nullable] and [example], each only where the node had no
    such field (a field the node had is rewritten in place). *)
Theorem keys_after_the_visit
    (fuel : nat) (root_of : Json -> Json) (d : Dict.t) (out : Json) :
  inner fuel root_of (JDict d) = Ok out ->
  exists d' added,
    out = JDict d' /\
    Dict.keys d' =
      filter (fun k => negb (String.eqb "examples" k)) (Dict.keys d) ++ added /\
    (added = [] \/ added = ["nullable"] \/ added = ["example"] \/
     added = ["nullable"; "example"]) /\
    (forall k, In k added -> Dict.get k d = None).
Proof.
  intros H. apply inner_dict_inv in H.
  destruct H as (n & d1 & d' & -> & H1 & -> & HF).
  pose proof (keys_same_keys _ _ _ HF) as K.
  pose proof (handle_anyOf_get _ _ _ "example" H1) as Ex.
  destruct (convert_examples_keys d1) as [K2 | [N2 K2]];
    destruct (handle_anyOf_keys _ _ _ H1) as [K1 | [N1 K1]];
    rewrite K2, K1, ?filter_app in K; simpl in K.
  - exists d', []. rewrite app_nil_r. repeat split; auto. intros k [].
  - exists d', ["nullable"]. repeat split; auto.
    intros k [<- | []]. exact N1.
  - exists d', ["example"]. repeat split; auto.
    intros k [<- | []]. rewrite <- Ex by discriminate. exact N2.
  - exists d', ["nullable"; "example"]. rewrite <- app_assoc in K.
    repeat split; auto.
    intros k [<- | [<- | []]]; auto. rewrite <- Ex by discriminate. exact N2.
Qed.

Lemma keys_after_the_visit_witness :
  inner 4 (fun x => x)
    (JDict [("title", JString "t"); ("examples", JList [num 1; num 2]);
            ("type", JString "integer")]) =
    Ok (JDict [("title", JString "t"); ("type", JString "integer");
               ("example", num 1)]) /\
  exists d' added,
    JDict [("title", JString "t"); ("type", JString "integer");
           ("example", num 1)] = JDict d' /\
    Dict.keys d' = ["title"; "type"] ++ added.
Proof.
  split; [reflexivity|].
  destruct (keys_after_the_visit 4 (fun x => x)
              [("title", JString "t"); ("examples", JList [num 1; num 2]);
               ("type", JString "integer")] _ eq_refl)
    as (d' & added & E & K & _).
  exists d', added. split; [exact E | exact K].
Defined.

(** ** When the converter returns *)

Section Sized.
Import Dict DictFacts.

Lemma sized_py_len v : sized v = true <-> exists n, py_len v = Ok n.
Proof.
  destruct v; simpl; split; eauto; try discriminate; intros [? H]; discriminate.
Qed.

Lemma root_sized_dict d :
  root_sized (JDict d) <->
  (forall v, get "anyOf" d = Some v -> sized v = true).
Proof.
  unfold root_sized. simpl. destruct (get "anyOf" d) as [v|]; simpl.
  - rewrite <- sized_py_len. split; [now intros H ? [= <-] | auto].
  - split; [discriminate | eauto].
Qed.

Lemma converts_to_sized v v' : converts_to v v' -> sized v' = sized v.
Proof.
  intros H. pose proof (converts_to_is_list _ _ H) as Hl.
  pose proof (converts_to_is_dict _ _ H) as Hd.
  destruct v; try (rewrite (converts_to_scalar _ _ H); reflexivity);
    destruct v'; simpl in *; congruence.
Qed.

Lemma get_app k a b :
  get k (a ++ b) = match get k a with Some v => Some v | None => get k b end.
Proof.
  induction a as [|[k' v'] a IH]; simpl; auto. now destruct (String.eqb k k').
Qed.

Lemma handle_anyOf_returns_sized root_of d :
  (forall x, is_dict x = true -> root_sized (root_of x)) ->
  exists d1, handle_anyOf root_of d = Ok d1.
Proof.
  intros Hr. unfold handle_anyOf.
  destruct (get "anyOf" d) as [[| | | |items|]|]; eauto.
  destruct (Hr (JDict (set "anyOf" (JList (drop_null_types items)) d)) eq_refl)
    as (n & Hn).
  destruct (get_anyOf_or_empty _) as [a| |]; simpl in *; try discriminate.
  rewrite Hn. simpl. destruct (Nat.ltb _ n); eauto.
Qed.

Lemma for_values_returns_sized visit todo :
  forall root_of done,
    (forall d, root_sized (root_of d)) ->
    (forall k v r,
        In (k, v) todo -> (forall x, root_sized (r x)) ->
        exists out, visit r v = Ok out) ->
    exists out, for_values visit root_of done todo = Ok out.
Proof.
  induction todo as [|[k v] rest IH]; simpl; intros root_of done Hr Hv; eauto.
  destruct (Hv k v (fun x => root_of (done ++ (k, x) :: rest))) as (v' & E);
    auto.
  rewrite E. simpl. apply IH; auto. intros; eapply Hv; eauto.
Qed.

Lemma for_items_returns_sized visit todo :
  forall root_of done,
    (forall l, root_sized (root_of l)) ->
    (forall v r,
        In v todo -> (forall x, root_sized (r x)) ->
        exists out, visit r v = Ok out) ->
    exists out, for_items visit root_of done todo = Ok out.
Proof.
  induction todo as [|v rest IH]; simpl; intros root_of done Hr Hv; eauto.
  destruct (Hv v (fun x => root_of (done ++ x :: rest))) as (v' & E); auto.
  rewrite E. simpl. apply IH; auto.
Qed.

(** A visit returns when [len] works on the root's [anyOf], whatever the
    node becomes; for a scalar nothing is asked. *)
Lemma inner_returns_sized fuel :
  forall root_of j,
    depth j < fuel ->
    (is_scalar j = false ->
     forall x, is_dict x = is_dict j -> is_list x = is_list j ->
               root_sized (root_of x)) ->
    exists out, inner fuel root_of j = Ok out.
Proof.
  induction fuel as [|n IH]; intros root_of j Hd Hr; [lia|].
  destruct j; cbn [inner]; eauto.
  - specialize (Hr eq_refl).
    destruct (for_items_returns_sized (inner n) l (fun x => root_of (JList x)) [])
      as (l' & E).
    + intros l0. now apply Hr.
    + intros v r Hin Hx. apply IH; auto.
      pose proof (depth_item _ _ Hin). lia.
    + rewrite E. simpl. eauto.
  - specialize (Hr eq_refl).
    destruct (handle_anyOf_returns_sized root_of d) as (d1 & E1).
    { intros [] Hx; try discriminate. now apply Hr. }
    rewrite E1. simpl.
    destruct (for_values_returns_sized (inner n) (convert_examples d1)
                (fun x => root_of (JDict x)) []) as (d' & E).
    + intros d0. now apply Hr.
    + intros k v r Hin Hx. apply IH; auto.
      assert (Hb : values_below (pred (depth (JDict d))) d).
      { intros k0 v0 H0. pose proof (depth_value _ _ _ H0). lia. }
      eapply handle_anyOf_below in Hb; eauto.
      apply convert_examples_below in Hb.
      specialize (Hb _ _ Hin). simpl in Hb, Hd. lia.
    + rewrite E. simpl. eauto.
Qed.

(** Lines 24-27 at the root: the root is compared with itself. *)
Lemma handle_anyOf_root_returns d :
  exists d1, handle_anyOf (fun x => x) d = Ok d1.
Proof.
  unfold handle_anyOf.
  destruct (get "anyOf" d) as [[| | | |items|]|]; eauto.
  simpl. rewrite get_set_same. simpl. rewrite Nat.ltb_irrefl. eauto.
Qed.

(** The loop of line 36 at the root: the root's [anyOf] is among the values
    visited, and keeps its kind. *)
Lemma for_values_root_returns n todo :
  forall done,
    (forall k v, In (k, v) todo -> depth v < n) ->
    (forall v, get "anyOf" (done ++ todo) = Some v -> sized v = true) ->
    exists out, for_values (inner n) (fun x => JDict x) done todo = Ok out.
Proof.
  induction todo as [|[k v] rest IH]; cbn [for_values]; intros done Hd Hs; eauto.
  assert (Hcase :
            match get "anyOf" done with
            | Some w => sized w = true
            | None =>
                if String.eqb "anyOf" k then sized v = true
                else forall w, get "anyOf" rest = Some w -> sized w = true
            end).
  { pose proof Hs as Hs'. setoid_rewrite get_app in Hs'. cbn [get] in Hs'.
    destruct (get "anyOf" done); auto.
    destruct (String.eqb "anyOf" k); auto. }
  destruct (inner_returns_sized n (fun x => JDict (done ++ (k, x) :: rest)) v)
    as (v' & E).
  - apply (Hd k v). now left.
  - intros Hsc x Hxd Hxl. apply root_sized_dict. intros w.
    rewrite get_app. cbn [get].
    destruct (get "anyOf" done); [now intros [= <-]|].
    destruct (String.eqb "anyOf" k); auto.
    intros [= <-]. unfold is_scalar in Hsc.
    destruct x; simpl in *; auto; rewrite <- Hxd, <- Hxl in Hsc; discriminate.
  - rewrite E. cbn [bind]. apply IH.
    + intros; eapply Hd; right; eauto.
    + intros w. rewrite <- app_assoc. cbn [app].
      rewrite get_app. cbn [get].
      destruct (get "anyOf" done); [now intros [= <-]|].
      destruct (String.eqb "anyOf" k); auto.
      intros [= <-]. rewrite (converts_to_sized v v'); auto.
      exists n, (fun x => JDict (done ++ (k, x) :: rest)). exact E.
Qed.

Lemma inner_root_returns_sized fuel d :
  depth (JDict d) < fuel ->
  (forall v, get "anyOf" d = Some v -> sized v = true) ->
  exists out, inner fuel (fun x => x) (JDict d) = Ok out.
Proof.
  intros Hd Hs. destruct fuel as [|n]; [lia|]. cbn [inner].
  destruct (handle_anyOf_root_returns d) as (d1 & E1).
  rewrite E1. simpl.
  destruct (for_values_root_returns n (convert_examples d1) []) as (d' & E).
  - intros k v Hin.
    assert (Hb : values_below (pred (depth (JDict d))) d).
    { intros k0 v0 H0. pose proof (depth_value _ _ _ H0). lia. }
    eapply handle_anyOf_below in Hb; eauto.
    apply convert_examples_below in Hb.
    specialize (Hb _ _ Hin). simpl in Hb, Hd. lia.
  - simpl. intros v. rewrite convert_examples_get by discriminate.
    rewrite (handle_anyOf_get_anyOf _ _ _ E1).
    destruct (get "anyOf" d) as [[| | | |items|]|] eqn:Ea; try (now apply Hs).
    now intros [= <-].
  - rewrite E. simpl. eauto.
Qed.

End Sized.

(** X6.  Lines 18 and 26: a [TypeError] of the converter on an Object can
    only be the one of [len] on line 26: the root then holds a number, a
    boolean or [None] under [anyOf].  With no [anyOf] at the root, or a list,
    a dict or a string there, the converter raises no [TypeError]. *)
Theorem type_error_comes_from_root_anyOf (d0 : Dict.t) :
  convert_3_dot_1_to_3_dot_0 (JDict d0) = Raise TypeError ->
  exists v, Dict.get "anyOf" d0 = Some v /\ sized v = false.
Proof.
  intros H.
  assert (R : (forall v, Dict.get "anyOf" d0 = Some v -> sized v = true) ->
              exists out, convert_3_dot_1_to_3_dot_0 (JDict d0) = Ok out).
  { intros Hs. unfold convert_3_dot_1_to_3_dot_0.
    apply inner_root_returns_sized; [lia|].
    intros v. rewrite DictFacts.get_set_other by discriminate. apply Hs. }
  destruct (Dict.get "anyOf" d0) as [v|].
  - exists v. split; [reflexivity|].
    destruct (sized v) eqn:Es; [|reflexivity].
    destruct R as (out & E); [now intros w [= <-] | congruence].
  - destruct R as (out & E); [discriminate | congruence].
Qed.

Lemma type_error_comes_from_root_anyOf_witness :
  convert_3_dot_1_to_3_dot_0 unsized_doc = Raise TypeError /\
  exists v,
    Dict.get "anyOf" [("anyOf", num 5); ("x", JDict [("anyOf", JList [])])]
    = Some v /\ sized v = false.
Proof.
  split; [reflexivity|].
  exact (type_error_comes_from_root_anyOf
           [("anyOf", num 5); ("x", JDict [("anyOf", JList [])])] eq_refl).
Defined.

(** ** Documents without [anyOf] at the root, once more *)

Section BelowPlainRoot.
Import Dict DictFacts.

Lemma all_dicts_value P d k v :
  all_dicts P (JDict d) -> In (k, v) d -> all_dicts P v.
Proof. intros H Hin d' Hs. apply H. eapply subnode_value; eauto. Qed.

Lemma all_dicts_item P l x : all_dicts P (JList l) -> In x l -> all_dicts P x.
Proof. intros H Hin d' Hs. apply H. eapply subnode_item; eauto. Qed.

Lemma all_dicts_drop P l :
  all_dicts P (JList l) -> all_dicts P (JList (drop_null_types l)).
Proof.
  intros H d Hs. inversion Hs as [|l0 x Hin Hx|]; subst.
  apply filter_In in Hin. eapply all_dicts_item; eauto. tauto.
Qed.

Lemma all_dictsb_sound f n :
  forall j,
    depth j < n -> all_dictsb f j = true -> all_dicts (fun d => f d = true) j.
Proof.
  induction n as [|n IH]; intros j Hd Hb d Hs; [lia|].
  inversion Hs as [E|l x Hin Hx E|d1 k v Hin Hv E]; subst; simpl in Hb.
  - now apply andb_true_iff in Hb.
  - rewrite forallb_forall in Hb. pose proof (depth_item _ _ Hin).
    apply (IH x); auto. lia.
  - apply andb_true_iff in Hb. destruct Hb as [_ Hb].
    rewrite forallb_forall in Hb. pose proof (depth_value _ _ _ Hin).
    apply (IH v); [lia | apply (Hb (k, v) Hin) | exact Hv].
Qed.

(** The values the walk finds in a node after the two rewrites are made of
    parts of the node. *)
Lemma rewritten_values_all_dicts P root_of d d1 k v :
  handle_anyOf root_of d = Ok d1 ->
  all_dicts P (JDict d) ->
  In (k, v) (convert_examples d1) -> all_dicts P v.
Proof.
  intros H1 Hu Hin.
  assert (Hk : forall items,
             get "anyOf" d = Some (JList items) ->
             all_dicts P (JList (drop_null_types items))).
  { intros items E. apply all_dicts_drop.
    eapply all_dicts_value; eauto. eapply get_In; eauto. }
  assert (U1 : forall k v, In (k, v) d1 -> all_dicts P v).
  { intros k1 v1 Hin1. apply handle_anyOf_cases in H1.
    destruct H1 as [(items & E & [-> | ->]) | [_ ->]].
    - apply In_set in Hin1. destruct Hin1 as [[= -> ->] | Hin1]; auto.
      eapply all_dicts_value; eauto.
    - apply In_set in Hin1. destruct Hin1 as [[= -> ->] | Hin1].
      { intros d' Hs. inversion Hs. }
      apply In_set in Hin1. destruct Hin1 as [[= -> ->] | Hin1]; auto.
      eapply all_dicts_value; eauto.
    - eapply all_dicts_value; eauto. }
  unfold convert_examples in Hin.
  destruct (get "examples" d1) as [[| | | |[|first rest]|]|] eqn:E;
    try (apply In_pop in Hin); eauto.
  apply In_set in Hin. destruct Hin as [[= -> ->] | Hin].
  - eapply all_dicts_item; [eapply U1, get_In; eauto | now left].
  - apply In_pop in Hin. eauto.
Qed.

(** The loops, with what each visit knows of the root. *)
Lemma for_values_inv_below visit root_of todo :
  forall done out,
    (forall d, keys d = keys (done ++ todo) ->
               get_anyOf_or_empty (root_of d) = Ok (JList [])) ->
    for_values visit root_of done todo = Ok out ->
    exists todo',
      out = done ++ todo' /\
      same_keys (fun v v' => exists r, no_root_anyOf r /\ visit r v = Ok v')
        todo todo'.
Proof.
  induction todo as [|[k v] rest IH]; simpl; intros done out Hr H.
  - injection H as <-. exists []. rewrite app_nil_r. split; constructor.
  - inv_bind H. destruct (IH _ _ (fun d Hd => Hr d (eq_trans Hd
        (eq_trans (f_equal keys (eq_sym (app_assoc done [(k, a)] rest)))
           (eq_trans (map_app fst done ((k, a) :: rest))
              (eq_sym (map_app fst done ((k, v) :: rest))))))) H)
      as (todo' & -> & HF).
    exists ((k, a) :: todo'). rewrite <- app_assoc. split; [reflexivity|].
    constructor; auto. simpl. split; auto.
    exists (fun x => root_of (done ++ (k, x) :: rest)). split; auto.
    intros x. apply Hr. unfold keys. now rewrite !map_app.
Qed.

Lemma for_items_inv_below visit root_of todo :
  forall done out,
    (forall l, get_anyOf_or_empty (root_of l) = Ok (JList [])) ->
    for_items visit root_of done todo = Ok out ->
    exists todo',
      out = done ++ todo' /\
      Forall2 (fun v v' => exists r, no_root_anyOf r /\ visit r v = Ok v')
        todo todo'.
Proof.
  induction todo as [|v rest IH]; simpl; intros done out Hr H.
  - injection H as <-. exists []. rewrite app_nil_r. split; constructor.
  - inv_bind H. destruct (IH _ _ Hr H) as (todo' & -> & HF).
    exists (a :: todo'). rewrite <- app_assoc. split; [reflexivity|].
    constructor; auto.
    exists (fun x => root_of (done ++ x :: rest)). split; auto.
    intros x. apply Hr.
Qed.

(** Below a root without [anyOf], a tree without [nullable] stays without
    [nullable]. *)
Lemma inner_no_nullable fuel :
  forall root_of j out,
    no_root_anyOf root_of ->
    all_dicts (fun d => get "nullable" d = None) j ->
    inner fuel root_of j = Ok out ->
    all_dicts (fun d => get "nullable" d = None) out.
Proof.
  induction fuel as [|n IH]; intros root_of j out Hr Hq H; [discriminate|].
  destruct j; try (simpl in H; injection H as <-; exact Hq).
  - cbn [inner] in H. inv_bind H. injection H as <-.
    apply for_items_inv_below in Ha; [|intros l0; apply Hr].
    destruct Ha as (l' & -> & HF). simpl.
    intros d Hs. inversion Hs as [|l0 x Hin Hx|]; subst.
    destruct (Forall2_In_r _ _ _ _ HF Hin) as (x0 & Hin0 & r & Hr0 & Hi).
    eapply (IH r x0 x); eauto. eapply all_dicts_item; eauto.
  - pose proof H as H0. cbn [inner] in H. inv_bind H. inv_bind H.
    injection H as <-.
    apply for_values_inv_below in Ha0; [|intros d0 _; apply Hr].
    destruct Ha0 as (d' & -> & HF). cbn [app] in *.
    intros d2 Hs. inversion Hs as [| |d3 k v Hin Hv]; subst.
    + pose proof (nullable_kept_below_root_without_anyOf
                    (S n) root_of d d' Hr H0) as K.
      unfold field_kept in K. now rewrite (Hq d (subnode_here _)) in K.
    + destruct (In_same_keys_inv _ _ _ _ _ HF Hin)
        as (v0 & Hin0 & r & Hr0 & Hi).
      eapply (IH r v0 v); eauto.
      eapply rewritten_values_all_dicts; eauto.
Qed.

End BelowPlainRoot.

(** X7.  Line 26 in a document whose root has no [anyOf]: the right operand
    is the length of the default [[]], the test never holds, and the
    converter never writes [nullable]; a document without [nullable] is
    returned without [nullable], whatever its [anyOf] lists lose. *)
Theorem no_nullable_without_root_anyOf (d0 : Dict.t) (out : Json) :
  Dict.get "anyOf" d0 = None ->
  (forall d, subnode (JDict d) (JDict d0) -> Dict.get "nullable" d = None) ->
  convert_3_dot_1_to_3_dot_0 (JDict d0) = Ok out ->
  forall d, subnode (JDict d) out -> Dict.get "nullable" d = None.
Proof.
  unfold convert_3_dot_1_to_3_dot_0. intros Ha Hq H.
  set (root := Dict.set "openapi" (JString "3.0.2") d0) in *.
  assert (Hroot : Dict.get "anyOf" root = None).
  { unfold root. now rewrite DictFacts.get_set_other by discriminate. }
  assert (Hq' : all_dicts (fun d => Dict.get "nullable" d = None) (JDict root)).
  { intros d Hs. inversion Hs as [| |d1 k v Hin Hv]; subst.
    - unfold root. rewrite DictFacts.get_set_other by discriminate.
      apply Hq, subnode_here.
    - apply In_set in Hin. destruct Hin as [[= -> ->] | Hin].
      + inversion Hv.
      + apply Hq. eapply subnode_value; eauto. }
  clearbody root. clear Hq Ha.
  generalize dependent (S (depth (JDict root))). intros fuel H.
  destruct fuel as [|n]; [discriminate|].
  cbn [inner] in H.
  rewrite handle_anyOf_not_list in H by (intros items; congruence).
  cbn [bind] in H. inv_bind H. injection H as <-.
  apply for_values_inv_below in Ha.
  - destruct Ha as (d' & -> & HF). simpl in *.
    intros d2 Hs. inversion Hs as [| |d3 k v Hin Hv]; subst.
    + eapply DictFacts.get_same_keys_None; eauto.
      rewrite convert_examples_get by discriminate.
      apply Hq', subnode_here.
    + destruct (DictFacts.In_same_keys_inv _ _ _ _ _ HF Hin)
        as (v0 & Hin0 & r & Hr0 & Hi).
      eapply (inner_no_nullable n r v0 v); eauto.
      eapply (rewritten_values_all_dicts _ (fun x => x) root root); eauto.
      apply handle_anyOf_not_list. intros items; congruence.
  - intros d Hk. simpl.
    rewrite (get_same_key_list "anyOf" (convert_examples root) d); auto.
    now rewrite convert_examples_get by discriminate.
Qed.

Lemma no_nullable_without_root_anyOf_witness :
  Dict.get "anyOf" pet_root = None /\
  convert_3_dot_1_to_3_dot_0 (JDict pet_root) = Ok pet_returned /\
  Dict.get "nullable" pet_converted = None.
Proof.
  split; [reflexivity|]. split; [reflexivity|].
  apply (no_nullable_without_root_anyOf pet_root pet_returned eq_refl).
  - intros d Hs.
    assert (K : match Dict.get "nullable" d with Some _ => false | None => true end
                = true).
    { apply (all_dictsb_sound
               (fun d => match Dict.get "nullable" d with
                         | Some _ => false
                         | None => true
                         end) 7 (JDict pet_root));
        [vm_compute; lia | reflexivity | exact Hs]. }
    now destruct (Dict.get "nullable" d).
  - reflexivity.
  - eapply subnode_value; [right; left; reflexivity|].
    eapply subnode_value; [left; reflexivity|].
    eapply subnode_value; [left; reflexivity|].
    apply subnode_here.
Defined.

(** ** Computed checks *)

Lemma distinct_NoDup ks : distinct ks = true -> NoDup ks.
Proof.
  induction ks as [|k rest IH]; simpl; [constructor|].
  intros H. apply andb_true_iff in H. destruct H as [H1 H2].
  constructor; auto. intros Hin. apply negb_true_iff in H1.
  assert (existsb (String.eqb k) rest = true); [|congruence].
  apply existsb_exists. exists k. split; auto. apply String.eqb_refl.
Qed.

Lemma unique_keys_computed n j :
  depth j < n ->
  all_dictsb (fun d => distinct (Dict.keys d)) j = true ->
  unique_keys j.
Proof.
  intros Hd Hb d Hs. apply distinct_NoDup.
  exact (all_dictsb_sound _ n j Hd Hb d Hs).
Qed.

Lemma nothing_to_convert_sound d :
  nothing_to_convert d = true -> no_examples d /\ no_null_branch d.
Proof.
  unfold nothing_to_convert, no_examples, no_null_branch.
  destruct (Dict.get "examples" d); [discriminate|]. intros H. split; auto.
  intros items item E Hin. rewrite E in H.
  rewrite forallb_forall in H. now apply negb_true_iff, H.
Qed.

Lemma converted_computed n j :
  depth j < n -> all_dictsb nothing_to_convert j = true -> converted j.
Proof.
  intros Hd Hb d Hs. apply nothing_to_convert_sound.
  exact (all_dictsb_sound _ n j Hd Hb d Hs).
Qed.

(** ** Witnesses *)

Lemma convert_unique_keys_witness :
  all_dictsb (fun d => distinct (Dict.keys d)) (JDict pet_root) = true /\
  convert_3_dot_1_to_3_dot_0 (JDict pet_root) = Ok pet_returned /\
  NoDup (Dict.keys pet_converted).
Proof.
  split; [reflexivity|]. split; [reflexivity|].
  apply (convert_unique_keys pet_root pet_returned).
  - apply (unique_keys_computed 7); [vm_compute; lia | reflexivity].
  - reflexivity.
  - eapply subnode_value; [right; left; reflexivity|].
    eapply subnode_value; [left; reflexivity|].
    eapply subnode_value; [left; reflexivity|].
    apply subnode_here.
Defined.

Lemma convert_twice_without_root_anyOf_witness :
  Dict.get "anyOf" pet_root = None /\
  convert_3_dot_1_to_3_dot_0 (JDict pet_root) = Ok pet_returned /\
  convert_3_dot_1_to_3_dot_0 pet_returned = Ok pet_returned.
Proof.
  split; [reflexivity|]. split; [reflexivity|].
  exact (convert_twice_without_root_anyOf pet_root pet_returned
           eq_refl eq_refl).
Defined.

(** X9.  A document that is already converted (version 3.0.2, no
    [examples], no null-typed entry in an [anyOf] list) and whose root has no
    [anyOf] is returned as it is: same fields, same values, same order. *)
Theorem converted_document_is_returned_as_it_is (d : Dict.t) (out : Json) :
  Dict.get "anyOf" d = None ->
  Dict.get "openapi" d = Some (JString "3.0.2") ->
  converted (JDict d) ->
  convert_3_dot_1_to_3_dot_0 (JDict d) = Ok out ->
  out = JDict d.
Proof.
  intros Ha Ho Hc H. rewrite (convert_converted d Ha Ho Hc) in H.
  now injection H.
Qed.

Lemma converted_document_is_returned_as_it_is_witness :
  all_dictsb nothing_to_convert pet_returned = true /\
  convert_3_dot_1_to_3_dot_0 pet_returned = Ok pet_returned /\
  pet_returned = pet_returned.
Proof.
  split; [reflexivity|]. split; [reflexivity|].
  apply (converted_document_is_returned_as_it_is
           [("openapi", JString "3.0.2");
            ("components",
             JDict [("schemas", JDict [("Pet", JDict pet_converted)])])]
           pet_returned); [reflexivity | reflexivity | | reflexivity].
  apply (converted_computed 7); [vm_compute; lia | reflexivity].
Defined.

(** * The caller *)

Section Caller.
Import Dict DictFacts.

Lemma convert_returns_converted d0 out :
  convert_3_dot_1_to_3_dot_0 (JDict d0) = Ok out ->
  converted out /\
  exists d, out = JDict d /\ get "openapi" d = Some (JString "3.0.2").
Proof.
  unfold convert_3_dot_1_to_3_dot_0. intros H. split.
  - intros d Hs. split.
    + eapply (inner_subnodes no_examples); eauto. apply inner_dict_no_examples.
    + eapply (inner_subnodes no_null_branch); eauto.
      apply inner_dict_no_null_branch.
  - destruct (inner_dict_get _ _ _ _ "openapi" H eq_refl) as (d & -> & G).
    exists d. split; [reflexivity|].
    rewrite get_set_same in G. destruct G as (v & -> & Hv).
    now rewrite (converts_to_scalar _ _ Hv).
Qed.

End Caller.

(** X11.  Lines 53-62: whatever happens, [load_and_convert] leaves a JSON
    document in no file but the destination, and there only what the
    converter returned for the document of the source: a document with
    [openapi] 3.0.2, without [examples] and without null-typed entry in an
    [anyOf] list.  Every other file that holds a document afterwards held it
    before. *)
Theorem load_and_convert_writes_only_converted_documents
    (source_path dest_path : string) (w : World) (p : string) (c : Json) :
  files (load_and_convert source_path dest_path w) p = Some (JsonText c) ->
  files w p = Some (JsonText c) \/
  (p = dest_path /\
   (exists content,
       files w source_path = Some (JsonText content) /\
       convert_3_dot_1_to_3_dot_0 content = Ok c) /\
   converted c /\
   exists d, c = JDict d /\ Dict.get "openapi" d = Some (JString "3.0.2")).
Proof.
  unfold load_and_convert.
  destruct (files w source_path) as [[content| |]|] eqn:Hsrc;
    cbn [files add_log]; auto.
  destruct (convert_3_dot_1_to_3_dot_0 content) as [out| |] eqn:E;
    cbn [files add_log refused]; auto.
  destruct (refused w dest_path) as [[|]|]; cbn [files add_log]; auto.
  cbn [writing add_log].
  destruct (writing w dest_path); cbn [files add_log write_file];
    destruct (String.eqb p dest_path) eqn:Ep; auto; try discriminate.
  intros [= <-]. right. apply String.eqb_eq in Ep.
  split; [exact Ep|]. split; [eauto|].
  destruct content; try discriminate.
  exact (convert_returns_converted _ _ E).
Qed.

Lemma load_and_convert_writes_only_converted_documents_witness :
  let w := {| files := fun p => if String.eqb p "in.json"
                                then Some (JsonText pet_doc) else None;
              refused := fun _ => None;
              writing := fun _ => Written;
              log := [] |} in
  files (load_and_convert "in.json" "out.json" w) "out.json"
  = Some (JsonText pet_returned) /\
  files w "out.json" = None /\
  converted pet_returned.
Proof.
  split; [reflexivity|]. split; [reflexivity|].
  destruct (load_and_convert_writes_only_converted_documents
              "in.json" "out.json"
              {| files := fun p => if String.eqb p "in.json"
                                   then Some (JsonText pet_doc) else None;
                 refused := fun _ => None;
                 writing := fun _ => Written;
                 log := [] |} "out.json" pet_returned eq_refl)
    as [H | (_ & _ & Hc & _)]; [discriminate | exact Hc].
Defined.

(** X13.  Running the tool on its own output (lines 53-62): after a run that
    converted an Object without [anyOf] at its root and wrote it to
    [dest_path], a second run from [dest_path] to [dest_path], where the
    write succeeds again, reads the document back, converts it to itself and
    leaves every file as the first run left it. *)
Theorem load_and_convert_again
    (source_path dest_path : string) (w : World) (d0 : Dict.t) (out : Json) :
  files w source_path = Some (JsonText (JDict d0)) ->
  Dict.get "anyOf" d0 = None ->
  convert_3_dot_1_to_3_dot_0 (JDict d0) = Ok out ->
  refused w dest_path = None ->
  writing w dest_path = Written ->
  let w1 := load_and_convert source_path dest_path w in
  let w2 := load_and_convert dest_path dest_path w1 in
  files w1 dest_path = Some (JsonText out) /\
  (forall p, files w2 p = files w1 p) /\
  log w2 = log w1 ++ [InfoLoaded dest_path; InfoSaved dest_path].
Proof.
  intros Hsrc Ha E Hdst Hwr.
  destruct (convert_result_plain d0 out Ha E) as (d & -> & Ha' & Ho & Hc).
  pose proof (convert_converted d Ha' Ho Hc) as E2.
  assert (W1 : load_and_convert source_path dest_path w
               = add_log (InfoSaved dest_path)
                   (write_file dest_path (JsonText (JDict d))
                      (add_log (InfoLoaded source_path) w))).
  { unfold load_and_convert. rewrite Hsrc, E. cbn [refused writing add_log].
    now rewrite Hdst, Hwr. }
  cbv zeta. rewrite W1. unfold load_and_convert.
  cbn [files log refused writing add_log write_file].
  rewrite String.eqb_refl, E2.
  cbn [files log refused writing add_log write_file].
  rewrite Hdst, Hwr. cbn [files log refused writing add_log write_file].
  split; [reflexivity|]. split.
  - intros p. now destruct (String.eqb p dest_path).
  - now rewrite <- !app_assoc.
Qed.

Lemma load_and_convert_again_witness :
  let w := {| files := fun p => if String.eqb p "in.json"
                                then Some (JsonText pet_doc) else None;
              refused := fun _ => None;
              writing := fun _ => Written;
              log := [] |} in
  let w1 := load_and_convert "in.json" "out.json" w in
  let w2 := load_and_convert "out.json" "out.json" w1 in
  convert_3_dot_1_to_3_dot_0 (JDict pet_root) = Ok pet_returned /\
  files w1 "out.json" = Some (JsonText pet_returned) /\
  files w2 "out.json" = files w1 "out.json" /\
  log w2 = log w1 ++ [InfoLoaded "out.json"; InfoSaved "out.json"].
Proof.
  split; [reflexivity|].
  destruct (load_and_convert_again "in.json" "out.json"
              {| files := fun p => if String.eqb p "in.json"
                                   then Some (JsonText pet_doc) else None;
                 refused := fun _ => None;
                 writing := fun _ => Written;
                 log := [] |} pet_root pet_returned
              eq_refl eq_refl eq_refl eq_refl eq_refl)
    as (F1 & F & L).
  split; [exact F1|]. split; [apply F | exact L].
Defined.
